(** * GitHubSentinel: the custom-site scraping client and its UI handler

    A shallow embedding of [src/custom_site_client.py] and of the custom-site
    handler of [src/gradio_server.py], followed by the properties of the
    extractor, of the fetch and export orchestration and of the site-name
    normalisation.

    Conventions of the embedding.
    - A Python [str] is a [string]; a character is a code point below 256
      (Latin-1), so [str.strip], [str.lower] and [str.isspace] are the
      Python methods restricted to that range.
    - A Python exception is a value of [exn]; code that may raise returns a
      [result].  Only instances of [Exception] are modelled.
    - [urllib.parse] (as in CPython 3.11 and 3.12) and the text methods of
      BeautifulSoup are written out.  The HTML parser and the CSS selector
      engine, which the code only calls, are the fields of the class
      [Libraries]; the network, the clock and the report generator are the
      fields of the class [Outside]. *)

From Stdlib Require Import String Ascii NArith ZArith List Bool Lia.
From stdpp Require Import base option list gmap strings.

Set Default Proof Using "Type".

#[local] Arguments String.append !_ _ : simpl nomatch.

(** ** Exceptions and results *)

Inductive message :=
| MsgText (s : string)
| MsgSiteConfigNotFound (site_name : string).

Inductive exn :=
| ValueError (m : message)
| LibraryError (cls : string) (value_error : bool) (m : string).

(** [isinstance(e, ValueError)]; a library exception records whether its class
    derives from [ValueError] (as [requests.exceptions.InvalidURL] does). *)
Definition isinstance_ValueError (e : exn) : bool :=
  match e with
  | ValueError _ => true
  | LibraryError _ b _ => b
  end.

Inductive result (A : Type) :=
| Ok (a : A)
| Raise (e : exn).
Arguments Ok {A} a.
Arguments Raise {A} e.

Global Instance result_ret : MRet result := fun A a => Ok a.

Global Instance result_bind : MBind result := fun A B k r =>
  match r with
  | Ok a => k a
  | Raise e => Raise e
  end.

(** ** Python string methods *)

Module PyStr.

Definition ord (c : ascii) : N := N_of_ascii c.
Definition chr (n : N) : ascii := ascii_of_N n.

(** [c.isspace()]: U+0009..U+000D, U+001C..U+0020, U+0085, U+00A0. *)
Definition isspace (c : ascii) : bool :=
  let n := ord c in
  ((9 <=? n) && (n <=? 13) || (28 <=? n) && (n <=? 32)
   || (n =? 133) || (n =? 160))%N.

(** Letters with a lowercase counterpart: A..Z and U+00C0..U+00DE but U+00D7. *)
Definition isupper (c : ascii) : bool :=
  let n := ord c in
  ((65 <=? n) && (n <=? 90)
   || (192 <=? n) && (n <=? 222) && negb (n =? 215))%N.

Definition lower_char (c : ascii) : ascii :=
  if isupper c then chr (ord c + 32) else c.

Definition isascii_alpha (c : ascii) : bool :=
  let n := ord c in
  ((65 <=? n) && (n <=? 90) || (97 <=? n) && (n <=? 122))%N.

Definition isdigit (c : ascii) : bool :=
  let n := ord c in ((48 <=? n) && (n <=? 57))%N.

(** [bool(s)] *)
Definition truthy (s : string) : bool :=
  match s with
  | EmptyString => false
  | String _ _ => true
  end.

Fixpoint lower (s : string) : string :=
  match s with
  | EmptyString => EmptyString
  | String c s' => String (lower_char c) (lower s')
  end.

Fixpoint lstrip_by (p : ascii -> bool) (s : string) : string :=
  match s with
  | EmptyString => EmptyString
  | String c s' => if p c then lstrip_by p s' else s
  end.

Fixpoint rstrip_by (p : ascii -> bool) (s : string) : string :=
  match s with
  | EmptyString => EmptyString
  | String c s' =>
      match rstrip_by p s' with
      | EmptyString => if p c then EmptyString else String c EmptyString
      | r => String c r
      end
  end.

Definition strip_by (p : ascii -> bool) (s : string) : string :=
  rstrip_by p (lstrip_by p s).

(** [s.strip()] *)
Definition strip (s : string) : string := strip_by isspace s.

(** [s.replace(old, new)] for a one-character [old]. *)
Fixpoint replace (old : ascii) (new : string) (s : string) : string :=
  match s with
  | EmptyString => EmptyString
  | String c s' =>
      if Ascii.eqb c old then new +:+ replace old new s'
      else String c (replace old new s')
  end.

(** [c in s] *)
Fixpoint contains (c : ascii) (s : string) : bool :=
  match s with
  | EmptyString => false
  | String d s' => Ascii.eqb d c || contains c s'
  end.

(** [s.find(c)], [None] standing for -1. *)
Fixpoint find (c : ascii) (s : string) : option nat :=
  match s with
  | EmptyString => None
  | String d s' => if Ascii.eqb d c then Some 0 else S <$> find c s'
  end.

(** [s.rfind(c)] *)
Fixpoint rfind (c : ascii) (s : string) : option nat :=
  match s with
  | EmptyString => None
  | String d s' =>
      match rfind c s' with
      | Some i => Some (S i)
      | None => if Ascii.eqb d c then Some 0 else None
      end
  end.

(** [s[:n]] and [s[n:]] for [n >= 0]. *)
Fixpoint take (n : nat) (s : string) : string :=
  match n, s with
  | S n', String c s' => String c (take n' s')
  | _, _ => EmptyString
  end.

Fixpoint drop (n : nat) (s : string) : string :=
  match n, s with
  | S n', String _ s' => drop n' s'
  | _, _ => s
  end.

Fixpoint forallb (p : ascii -> bool) (s : string) : bool :=
  match s with
  | EmptyString => true
  | String c s' => p c && forallb p s'
  end.

(** [s.split(sep)] for a one-character [sep]: never empty. *)
Fixpoint split (sep : ascii) (s : string) : list string :=
  match s with
  | EmptyString => [EmptyString]
  | String c s' =>
      if Ascii.eqb c sep then EmptyString :: split sep s'
      else match split sep s' with
           | w :: ws => String c w :: ws
           | [] => [String c EmptyString]
           end
  end.

(** [s.split(sep, 1)] as a pair, when [sep in s]; [(s, "")] otherwise. *)
Definition split1 (sep : ascii) (s : string) : string * string :=
  match find sep s with
  | Some i => (take i s, drop (S i) s)
  | None => (s, EmptyString)
  end.

(** [sep.join(l)] *)
Fixpoint join (sep : string) (l : list string) : string :=
  match l with
  | [] => EmptyString
  | [w] => w
  | w :: ws => w +:+ sep +:+ join sep ws
  end.

(** [s.startswith(p)] *)
Definition startswith (p s : string) : bool := String.prefix p s.

(** [x in l] for a list of strings *)
Definition mem (x : string) (l : list string) : bool :=
  existsb (String.eqb x) l.

End PyStr.

(** ** The document tree of BeautifulSoup *)

Module Soup.

(** A parsed document.  [NavigableString] is a text node; [Comment] stands for
    the string classes that [get_text] leaves out (comments, declarations,
    processing instructions); a [Tag] has a name, its attribute dictionary and
    its children in document order.  Attribute values are kept as text: the
    only attribute the client reads is [href], which is single-valued. *)
#[warnings="-register-all"]
Inductive Node :=
| NavigableString (s : string)
| Comment (s : string)
| Tag (name : string) (attrs : gmap string string) (contents : list Node).

Definition is_tag (n : Node) : bool :=
  match n with
  | Tag _ _ _ => true
  | _ => false
  end.

(** A node of a tree is an object with a position: besides its own subtree a
    location keeps, for every ancestor from the parent up to the root, that
    ancestor's name and attributes and the siblings on both sides (the left
    ones nearest first). *)
Record Frame := mkFrame {
  parent_name : string;
  parent_attrs : gmap string string;
  left_siblings : list Node;
  right_siblings : list Node
}.

Definition Loc : Type := list Frame * Node.

(** [tag.descendants]: all nodes below [n], in document order (pre-order). *)
Fixpoint descendants (c : list Frame) (n : Node) {struct n} : list Loc :=
  match n with
  | Tag name attrs kids =>
      (fix walk (left : list Node) (ks : list Node) {struct ks} : list Loc :=
         match ks with
         | [] => []
         | k :: rest =>
             let c' := mkFrame name attrs left rest :: c in
             (c', k) :: descendants c' k ++ walk (k :: left) rest
         end) [] kids
  | _ => []
  end.

(** The strings [_all_strings] visits: the text nodes below [n] (or [n] itself
    when it is one), in document order. *)
Fixpoint all_strings (n : Node) : list string :=
  match n with
  | NavigableString s => [s]
  | Comment _ => []
  | Tag _ _ kids =>
      (fix walk (ks : list Node) : list string :=
         match ks with
         | [] => []
         | k :: rest => all_strings k ++ walk rest
         end) kids
  end.

(** [node.get_text(separator, strip)]: every string, stripped and dropped when
    that leaves nothing if [strip] is set, joined by the separator. *)
Definition get_text_sep (separator : string) (strip : bool) (n : Node) : string :=
  PyStr.join separator
    (omap (fun s =>
             if strip then
               let s' := PyStr.strip s in
               if PyStr.truthy s' then Some s' else None
             else Some s)
          (all_strings n)).

(** [node.get_text(strip=...)], the separator being the empty string. *)
Definition get_text (strip : bool) (n : Node) : string :=
  get_text_sep EmptyString strip n.

(** [tag.get(key, default)] *)
Definition get (n : Node) (key default : string) : string :=
  match n with
  | Tag _ attrs _ => from_option id default (attrs !! key)
  | _ => default
  end.

End Soup.

(** ** What the code takes from outside the repository *)

(** The libraries that are only called: [BeautifulSoup(html, "html.parser")],
    which builds the tree or raises; the selector engine behind [select] and
    [select_one], which compiles a selector (or raises on a malformed one) into
    a test of a candidate element given the element the query started from;
    and the check [urlsplit] applies to a network location that contains both
    brackets (absent in older releases of Python, an address check in newer
    ones). *)
Class Libraries := {
  BeautifulSoup : string -> result Soup.Node;
  css_compile : string -> result (Soup.Loc -> Soup.Loc -> bool);
  bracketed_netloc_ok : string -> bool
}.

(** ** urllib.parse *)

Module UrlParse.

Import PyStr.

Definition uses_relative : list string :=
  [""; "ftp"; "http"; "gopher"; "nntp"; "imap"; "wais"; "file"; "https";
   "shttp"; "mms"; "prospero"; "rtsp"; "rtspu"; "sftp"; "svn"; "svn+ssh";
   "ws"; "wss"].

Definition uses_netloc : list string :=
  [""; "ftp"; "http"; "gopher"; "nntp"; "telnet"; "imap"; "wais"; "file";
   "mms"; "https"; "shttp"; "snews"; "prospero"; "rtsp"; "rtspu"; "rsync";
   "svn"; "svn+ssh"; "sftp"; "nfs"; "git"; "git+ssh"; "ws"; "wss";
   "itms-services"].

Definition uses_params : list string :=
  [""; "ftp"; "hdl"; "prospero"; "http"; "imap"; "https"; "shttp"; "rtsp";
   "rtspu"; "sip"; "sips"; "mms"; "sftp"; "tel"].

(** [c in scheme_chars] *)
Definition scheme_char (c : ascii) : bool :=
  isascii_alpha c || isdigit c
  || Ascii.eqb c "+" || Ascii.eqb c "-" || Ascii.eqb c ".".

(** [c in _WHATWG_C0_CONTROL_OR_SPACE] *)
Definition c0_control_or_space (c : ascii) : bool := (ord c <=? 32)%N.

(** Removal of [_UNSAFE_URL_BYTES_TO_REMOVE]: tab, carriage return, newline. *)
Definition remove_unsafe (s : string) : string :=
  replace (chr 10) "" (replace (chr 13) "" (replace (chr 9) "" s)).

Record ParseResult := mkParseResult {
  scheme : string;
  netloc : string;
  path : string;
  params : string;
  query : string;
  fragment : string
}.

(** [_splitnetloc(url, 2)]: the text after the two slashes up to the first of
    [/], [?] and [#]. *)
Fixpoint netloc_end (s : string) : nat :=
  match s with
  | EmptyString => 0
  | String c s' =>
      if Ascii.eqb c "/" || Ascii.eqb c "?" || Ascii.eqb c "#" then 0
      else S (netloc_end s')
  end.

Definition _splitnetloc (url : string) : string * string :=
  let rest := drop 2 url in
  let delim := netloc_end rest in
  (take delim rest, drop delim rest).

(** [urlsplit(url, scheme)]; the path component is named [path] here.  The
    last check of the function, [_checknetloc], looks for a network location
    that normalisation (NFKC) would turn into one with a delimiter in it; no
    code point below 256 normalises to a delimiter, so it is left out. *)
Definition urlsplit {L : Libraries} (url scheme : string) : result ParseResult :=
  let url := lstrip_by c0_control_or_space url in
  let scheme := strip_by c0_control_or_space scheme in
  let url := remove_unsafe url in
  let scheme := remove_unsafe scheme in
  let '(scheme, url) :=
    match find ":" url, url with
    | Some (S i), String c0 _ =>
        if isascii_alpha c0 && forallb scheme_char (take (S i) url)
        then (lower (take (S i) url), drop (S (S i)) url)
        else (scheme, url)
    | _, _ => (scheme, url)
    end in
  '(netloc, url) ←
    (if String.eqb (take 2 url) "//" then
       let '(netloc, url) := _splitnetloc url in
       let lb := contains "[" netloc in
       let rb := contains "]" netloc in
       if lb && negb rb || rb && negb lb then
         Raise (ValueError (MsgText "Invalid IPv6 URL"))
       else if lb && rb && negb (bracketed_netloc_ok netloc) then
         Raise (ValueError (MsgText "Invalid IPv6 URL"))
       else Ok (netloc, url)
     else Ok (EmptyString, url));
  let '(url, fragment) :=
    if contains "#" url then split1 "#" url else (url, EmptyString) in
  let '(url, query) :=
    if contains "?" url then split1 "?" url else (url, EmptyString) in
  Ok (mkParseResult scheme netloc url EmptyString query fragment).

(** [_splitparams(url)], which [urlparse] calls when [;] occurs in [url]. *)
Definition _splitparams (url : string) : string * string :=
  if contains "/" url then
    let after := from_option id 0 (rfind "/" url) in
    match find ";" (drop after url) with
    | Some j => (take (after + j) url, drop (S (after + j)) url)
    | None => (url, EmptyString)
    end
  else split1 ";" url.

(** [urlparse(url, scheme)] *)
Definition urlparse {L : Libraries} (url scheme : string) : result ParseResult :=
  r ← urlsplit url scheme;
  if mem r.(UrlParse.scheme) uses_params && contains ";" r.(path) then
    let '(url, params) := _splitparams r.(path) in
    Ok (mkParseResult r.(UrlParse.scheme) r.(netloc) url params
          r.(query) r.(fragment))
  else Ok r.

Definition urlunsplit (scheme netloc url query fragment : string) : string :=
  let url :=
    if truthy netloc
       || truthy scheme && mem scheme uses_netloc
          && negb (String.eqb (take 2 url) "//")
    then
      let url :=
        if truthy url && negb (String.eqb (take 1 url) "/")
        then "/" +:+ url else url in
      "//" +:+ netloc +:+ url
    else url in
  let url := if truthy scheme then scheme +:+ ":" +:+ url else url in
  let url := if truthy query then url +:+ "?" +:+ query else url in
  let url := if truthy fragment then url +:+ "#" +:+ fragment else url in
  url.

Definition urlunparse (r : ParseResult) : string :=
  let url :=
    if truthy r.(params) then r.(path) +:+ ";" +:+ r.(params) else r.(path) in
  urlunsplit r.(scheme) r.(netloc) url r.(query) r.(fragment).

(** [segments[1:-1] = filter(None, segments[1:-1])] *)
Definition drop_empty_inner (segments : list string) : list string :=
  match segments with
  | first :: (_ :: _) as rest =>
      first :: List.filter truthy (removelast rest) ++ [List.last rest EmptyString]
  | _ => segments
  end.

(** The loop of [urljoin] over the segments, [resolved_path] being kept in
    reverse. *)
Fixpoint resolve_segments (segments : list string) (resolved_rev : list string)
  : list string :=
  match segments with
  | [] => rev resolved_rev
  | seg :: rest =>
      if String.eqb seg ".." then resolve_segments rest (tail resolved_rev)
      else if String.eqb seg "." then resolve_segments rest resolved_rev
      else resolve_segments rest (seg :: resolved_rev)
  end.

(** [urljoin(base, url)] *)
Definition urljoin {L : Libraries} (base url : string) : result string :=
  if negb (truthy base) then Ok url
  else if negb (truthy url) then Ok base
  else
    b ← urlparse base EmptyString;
    u ← urlparse url b.(scheme);
    if negb (String.eqb u.(scheme) b.(scheme))
       || negb (mem u.(scheme) uses_relative)
    then Ok url
    else if mem u.(scheme) uses_netloc && truthy u.(netloc)
    then Ok (urlunparse u)
    else
      let netloc :=
        if mem u.(scheme) uses_netloc then b.(netloc) else u.(netloc) in
      if negb (truthy u.(path)) && negb (truthy u.(params)) then
        let query := if truthy u.(query) then u.(query) else b.(query) in
        Ok (urlunparse (mkParseResult u.(scheme) netloc b.(path) b.(params)
                          query u.(fragment)))
      else
        let base_parts := split "/" b.(path) in
        let base_parts :=
          if truthy (List.last base_parts EmptyString)
          then removelast base_parts else base_parts in
        let segments :=
          if String.eqb (take 1 u.(path)) "/" then split "/" u.(path)
          else drop_empty_inner (base_parts ++ split "/" u.(path)) in
        let resolved_path := resolve_segments segments [] in
        let last_seg := List.last segments EmptyString in
        let resolved_path :=
          if String.eqb last_seg "." || String.eqb last_seg ".."
          then resolved_path ++ [EmptyString] else resolved_path in
        let joined := join "/" resolved_path in
        Ok (urlunparse (mkParseResult u.(scheme) netloc
                          (if truthy joined then joined else "/")
                          u.(params) u.(query) u.(fragment))).

End UrlParse.

(** The world the client talks to: the HTTP session ([session.get] followed by
    reading the response), the clock as formatted by [strftime], and the
    report generator of the UI, which is built from the model settings and
    turns an exported file and a site name into a report and its path. *)
Record Response := mkResponse {
  status_code : Z;
  text : string
}.

Class Outside := {
  session_get : string -> Z -> list (string * string) -> result Response;
  now_date : string;
  now_hour : string;
  build_report_generator :
    string -> string -> result (string -> string -> result (string * string))
}.

(** ** src/custom_site_client.py *)

Module CustomSiteClient.

Record SiteConfig := mkSiteConfig {
  name : string;
  url : string;
  item_selector : string;
  title_selector : string;
  link_selector : string;
  summary_selector : option string;
  base_url : option string
}.

(** [link_selector] defaults to ["a"], the two optional fields to [None]. *)
Definition default_link_selector : string := "a".

(** The dictionary [{"title": .., "link": .., "summary": ..}]. *)
Record Item := mkItem {
  title : string;
  link : string;
  summary : string
}.

(** The calls to [LOG], one constructor per call site with its arguments. *)
Inductive Level := DEBUG | INFO | WARNING | ERROR.

Inductive Event :=
| SiteRegistered (name : string)
| PreparingFetch (site_name : string)
| ParsedOk (site_name : string) (count : nat)
| FetchFailed (site_name : string) (exc : exn)
| PreparingExport (site_name : string)
| ConfigError (exc : exn)
| NothingToExport (site_name : string)
| Exported (site_name : string) (file_path : string).

(** What [file.write] receives in [export_site_items]: the heading, one
    numbered entry per item, and a summary line below an entry. *)
Inductive Chunk :=
| Heading (site_name date hour : string)
| Entry (idx : nat) (title link : string)
| SummaryLine (summary : string).

(** The client object together with what it acts on: the registry
    [site_configs], the log, and the files it has written (by path; opening a
    file for writing replaces its content).  Directory creation and file
    opening are taken to succeed. *)
Record State := mkState {
  site_configs : gmap string SiteConfig;
  log : list (Level * Event);
  files : gmap string (list Chunk)
}.

Definition LOG (lvl : Level) (ev : Event) (st : State) : State :=
  mkState st.(site_configs) (st.(log) ++ [(lvl, ev)]) st.(files).

Definition timeout : Z := 15.

Definition headers : list (string * string) :=
  [("User-Agent",
    "Mozilla/5.0 (Macintosh; Intel Mac OS X 10_15_7) " +:+
    "AppleWebKit/537.36 (KHTML, like Gecko) " +:+
    "Chrome/124.0.0.0 Safari/537.36")].

Definition register_site (st : State) (config : SiteConfig) : State :=
  LOG INFO (SiteRegistered config.(name))
    (mkState (<[config.(name) := config]> st.(site_configs))
       st.(log) st.(files)).

Definition _register_builtin_sites (st : State) : State :=
  let st :=
    register_site st
      (mkSiteConfig "openai_blog" "https://openai.com/news/rss.xml"
         "item" "title" "link" (Some "description")
         (Some "https://openai.com")) in
  register_site st
    (mkSiteConfig "openai_research" "https://openai.com/research/rss.xml"
       "item" "title" "link" (Some "description")
       (Some "https://openai.com")).

(** [CustomSiteClient()] in a world with the given log and files. *)
Definition __init__ (log : list (Level * Event))
    (files : gmap string (list Chunk)) : State :=
  _register_builtin_sites (mkState ∅ log files).

Definition list_sites (st : State) : gset string := dom st.(site_configs).

Definition has_site (st : State) (site_name : string) : bool :=
  bool_decide (is_Some (st.(site_configs) !! site_name)).

(** [node.select(selector)]: the elements below [scope] that the compiled
    selector accepts, in document order. *)
Definition select {L : Libraries} (selector : string) (scope : Soup.Loc)
  : result (list Soup.Loc) :=
  m ← css_compile selector;
  Ok (List.filter (fun c => Soup.is_tag c.2 && m scope c)
        (Soup.descendants scope.1 scope.2)).

(** [node.select_one(selector)]: the first of them, or [None]. *)
Definition select_one {L : Libraries} (selector : string) (scope : Soup.Loc)
  : result (option Soup.Loc) :=
  found ← select selector scope;
  Ok (head found).

(** [config.base_url or config.url] *)
Definition link_base (config : SiteConfig) : string :=
  match config.(base_url) with
  | Some b => if PyStr.truthy b then b else config.(url)
  | None => config.(url)
  end.

(** Lines 105-111: the link node and the raw link taken from it. *)
Definition find_link_node {L : Libraries} (config : SiteConfig)
    (node title_node : Soup.Loc) : result (option Soup.Loc) :=
  if PyStr.truthy config.(link_selector)
  then select_one config.(link_selector) node
  else Ok (Some title_node).

Definition raw_link_of (link_node : option Soup.Loc) : string :=
  match link_node with
  | Some ln =>
      let raw_link := PyStr.strip (Soup.get ln.2 "href" "") in
      if PyStr.truthy raw_link then raw_link else Soup.get_text true ln.2
  | None => EmptyString
  end.

(** Lines 115-119: the summary. *)
Definition find_summary {L : Libraries} (config : SiteConfig) (node : Soup.Loc)
  : result string :=
  match config.(summary_selector) with
  | Some sel =>
      if PyStr.truthy sel then
        summary_node ← select_one sel node;
        match summary_node with
        | Some sn => Ok (Soup.get_text true sn.2)
        | None => Ok EmptyString
        end
      else Ok EmptyString
  | None => Ok EmptyString
  end.

(** The body of the loop of [_parse_items] for one item node: the item to
    append, [None] when the node is skipped. *)
Definition parse_item_node {L : Libraries} (config : SiteConfig)
    (node : Soup.Loc) : result (option Item) :=
  title_node ← select_one config.(title_selector) node;
  match title_node with
  | None => Ok None
  | Some title_node =>
      link_node ← find_link_node config node title_node;
      let raw_link := raw_link_of link_node in
      full_link ←
        (if PyStr.truthy raw_link
         then UrlParse.urljoin (link_base config) raw_link
         else Ok EmptyString);
      let title := Soup.get_text true title_node.2 in
      summary ← find_summary config node;
      if PyStr.truthy title
      then Ok (Some (mkItem title full_link summary))
      else Ok None
  end.

(** The loop itself, [parsed_items] growing at its end. *)
Fixpoint parse_loop {L : Libraries} (config : SiteConfig)
    (item_nodes : list Soup.Loc) (parsed_items : list Item)
  : result (list Item) :=
  match item_nodes with
  | [] => Ok parsed_items
  | node :: rest =>
      r ← parse_item_node config node;
      parse_loop config rest
        (match r with
         | Some item => parsed_items ++ [item]
         | None => parsed_items
         end)
  end.

Definition _parse_items {L : Libraries} (html : string) (config : SiteConfig)
  : result (list Item) :=
  soup ← BeautifulSoup html;
  item_nodes ← select config.(item_selector) ([], soup);
  parse_loop config item_nodes [].

(** [response.raise_for_status()] *)
Definition raise_for_status (response : Response) : result unit :=
  if ((400 <=? response.(status_code)) && (response.(status_code) <? 600))%Z
  then Raise (LibraryError "requests.exceptions.HTTPError" false "")
  else Ok tt.

(** [items[:stop]] with Python's reading of a negative bound. *)
Definition slice_to {A} (items : list A) (stop : Z) : list A :=
  if (0 <=? stop)%Z then take (Z.to_nat stop) items
  else take (Z.to_nat (Z.of_nat (length items) + stop)) items.

Definition default_limit : Z := 30.

(** The body of the [try] block of [fetch_site_items] up to the parsed items. *)
Definition fetch_and_parse {L : Libraries} {O : Outside} (config : SiteConfig)
  : result (list Item) :=
  response ← session_get config.(url) timeout headers;
  _ ← raise_for_status response;
  _parse_items response.(text) config.

Definition fetch_site_items {L : Libraries} {O : Outside} (st : State)
    (site_name : string) (limit : Z) : result (list Item) * State :=
  let st := LOG DEBUG (PreparingFetch site_name) st in
  match st.(site_configs) !! site_name with
  | None => (Raise (ValueError (MsgSiteConfigNotFound site_name)), st)
  | Some config =>
      match fetch_and_parse config with
      | Ok items =>
          (Ok (slice_to items limit),
           LOG INFO (ParsedOk site_name (length items)) st)
      | Raise exc => (Ok [], LOG ERROR (FetchFailed site_name exc) st)
      end
  end.

(** [os.path.join(a, b)] on POSIX. *)
Definition path_join (a b : string) : string :=
  if PyStr.startswith "/" b then b
  else if negb (PyStr.truthy a) || String.eqb (PyStr.drop (String.length a - 1) a) "/"
  then a +:+ b
  else a +:+ "/" +:+ b.

(** The writes of the loop over [enumerate(items, start)]. *)
Fixpoint item_chunks (idx : nat) (items : list Item) : list Chunk :=
  match items with
  | [] => []
  | item :: rest =>
      Entry idx item.(title) item.(link)
      :: (if PyStr.truthy item.(summary) then [SummaryLine item.(summary)] else [])
      ++ item_chunks (S idx) rest
  end.

(** [export_site_items]; [os.makedirs], [open] and [file.write] (lines
    149-157, outside any [try]) are taken to succeed: an [OSError] of theirs
    would leave the function, which the model does not show. *)
Definition export_site_items {L : Libraries} {O : Outside} (st : State)
    (site_name : string) (date hour : option string)
  : result (option string) * State :=
  let st := LOG DEBUG (PreparingExport site_name) st in
  match fetch_site_items st site_name default_limit with
  | (Raise exc, st) =>
      if isinstance_ValueError exc
      then (Ok None, LOG ERROR (ConfigError exc) st)
      else (Raise exc, st)
  | (Ok [], st) => (Ok None, LOG WARNING (NothingToExport site_name) st)
  | (Ok items, st) =>
      let date := from_option id now_date date in
      let hour := from_option id now_hour hour in
      let dir_path := path_join (path_join "custom_sites" site_name) date in
      let file_path := path_join dir_path (hour +:+ ".md") in
      let content := Heading site_name date hour :: item_chunks 1 items in
      let st :=
        mkState st.(site_configs) st.(log)
          (<[file_path := content]> st.(files)) in
      (Ok (Some file_path), LOG INFO (Exported site_name file_path) st)
  end.

End CustomSiteClient.

(** ** src/gradio_server.py: the custom-site handler *)

Module GradioServer.

Import CustomSiteClient.

(** [x or ""] and [bool(x)] for the value of a text box or of the drop-down,
    which is a string or [None]. *)
Definition or_empty (x : option string) : string := from_option id EmptyString x.

Definition filled (x : option string) : bool := PyStr.truthy (or_empty x).

Definition _normalize_site_name {L : Libraries} (raw_name : option string)
    (fallback_url : string) : result string :=
  let name := PyStr.lower (PyStr.strip (or_empty raw_name)) in
  name ←
    (if negb (PyStr.truthy name) then
       parsed ← UrlParse.urlparse fallback_url EmptyString;
       let host := parsed.(UrlParse.netloc) in
       Ok (PyStr.replace "." "_" host)
     else Ok name);
  Ok (PyStr.replace " " "_" name).

(** What the handler hands back to the UI: one of its three fixed messages
    (with no file), or the report and the path of its file. *)
Inductive Output :=
| InvalidUrlMessage
| ChooseSiteMessage
| NoDataMessage
| Report (report : string) (report_file_path : string).

(** Lines 77-87: the configuration built from the text boxes, once the URL has
    been parsed and the site name chosen. *)
Definition adhoc_config (chosen_site : string) (parsed_url : UrlParse.ParseResult)
    (custom_site_url custom_item_selector custom_title_selector
     custom_link_selector custom_summary_selector custom_base_url
       : option string) : SiteConfig :=
  let resolved_base_url :=
    let b := PyStr.strip (or_empty custom_base_url) in
    if PyStr.truthy b then b
    else parsed_url.(UrlParse.scheme) +:+ "://" +:+ parsed_url.(UrlParse.netloc) in
  mkSiteConfig chosen_site
    (PyStr.strip (or_empty custom_site_url))
    (PyStr.strip (or_empty custom_item_selector))
    (PyStr.strip (or_empty custom_title_selector))
    (PyStr.strip (if filled custom_link_selector
                  then or_empty custom_link_selector else "a"))
    (let s := PyStr.strip (or_empty custom_summary_selector) in
     if PyStr.truthy s then Some s else None)
    (Some resolved_base_url).

(** Lines 92-97: export the chosen site and hand the file to the generator. *)
Definition export_and_report {L : Libraries} {O : Outside}
    (report_generator : string -> string -> result (string * string))
    (st : State) (chosen_site : string) : result Output * State :=
  match export_site_items st chosen_site None None with
  | (Raise exc, st) => (Raise exc, st)
  | (Ok None, st) => (Ok NoDataMessage, st)
  | (Ok (Some markdown_file_path), st) =>
      if negb (PyStr.truthy markdown_file_path) then (Ok NoDataMessage, st)
      else
        match report_generator markdown_file_path chosen_site with
        | Ok (report, report_file_path) =>
            (Ok (Report report report_file_path), st)
        | Raise exc => (Raise exc, st)
        end
  end.

Definition generate_custom_site_report {L : Libraries} {O : Outside} (st : State)
    (model_type model_name : string)
    (site_name custom_site_name custom_site_url custom_item_selector
     custom_title_selector custom_link_selector custom_summary_selector
     custom_base_url : option string) : result Output * State :=
  match build_report_generator model_type model_name with
  | Raise exc => (Raise exc, st)
  | Ok report_generator =>
      if filled custom_site_url && filled custom_item_selector
         && filled custom_title_selector
      then
        match UrlParse.urlparse (PyStr.strip (or_empty custom_site_url))
                EmptyString with
        | Raise exc => (Raise exc, st)
        | Ok parsed_url =>
            if negb (PyStr.truthy parsed_url.(UrlParse.scheme))
               || negb (PyStr.truthy parsed_url.(UrlParse.netloc))
            then (Ok InvalidUrlMessage, st)
            else
              match _normalize_site_name custom_site_name
                      (or_empty custom_site_url) with
              | Raise exc => (Raise exc, st)
              | Ok chosen_site =>
                  let st :=
                    register_site st
                      (adhoc_config chosen_site parsed_url custom_site_url
                         custom_item_selector custom_title_selector
                         custom_link_selector custom_summary_selector
                         custom_base_url) in
                  export_and_report report_generator st chosen_site
              end
        end
      else if negb (filled site_name) then (Ok ChooseSiteMessage, st)
      else export_and_report report_generator st (or_empty site_name)
  end.

End GradioServer.

(** ** Words of the specification *)

Module Spec.

Import CustomSiteClient.

(** The text content of a node: all its text, nothing removed. *)
Definition text_content (n : Soup.Node) : string := Soup.get_text false n.

(** The item the extractor emits for an item node, if any. *)
Definition emitted {L : Libraries} (config : SiteConfig) (node : Soup.Loc)
  : option Item :=
  match parse_item_node config node with
  | Ok r => r
  | Raise _ => None
  end.

(** [c] occurs in [s] and satisfies [p]. *)
Definition has_char (p : ascii -> bool) (s : string) : bool :=
  negb (PyStr.forallb (fun c => negb (p c)) s).

(** The numbered entries of an exported file: index, title and link. *)
Definition entries (content : list Chunk) : list (nat * string * string) :=
  omap (fun chunk =>
          match chunk with
          | Entry idx title link => Some (idx, title, link)
          | _ => None
          end) content.

(** A supplied name is blank when nothing is left of it after trimming. *)
Definition blank (raw_name : option string) : bool :=
  negb (PyStr.truthy (PyStr.strip (GradioServer.or_empty raw_name))).

End Spec.

(** ** A small world to run the code in *)

Module Fixture.

Import Soup CustomSiteClient.

(** A selector engine that knows type selectors: a non-empty selector accepts
    the elements of that name, the empty one is malformed. *)
Definition type_selectors (selector : string)
  : result (Loc -> Loc -> bool) :=
  if PyStr.truthy selector then
    Ok (fun _ c =>
          match c.2 with
          | Tag n _ _ => String.eqb n selector
          | _ => false
          end)
  else Raise (LibraryError "soupsieve.util.SelectorSyntaxError" false
                "Expected a selector at position 0").

(** One page and its tree: three list items, the last without an anchor. *)
Definition page_html : string :=
  "<ul><li><a href=/p1>Hello</a></li>" +:+
  "<li><a href=a/b> Second  item </a><p>More <b>text</b> here</p></li>" +:+
  "<li><p>no title</p></li></ul>".

Definition page_soup : Node :=
  Tag "[document]" ∅
    [Tag "ul" ∅
       [Tag "li" ∅
          [Tag "a" {["href" := "/p1"]} [NavigableString "Hello"]];
        Tag "li" ∅
          [Tag "a" {["href" := "a/b"]} [NavigableString " Second  item "];
           Tag "p" ∅
             [NavigableString "More ";
              Tag "b" ∅ [NavigableString "text"];
              NavigableString " here"]];
        Tag "li" ∅ [Tag "p" ∅ [NavigableString "no title"]]]].

Definition libraries : Libraries := {|
  BeautifulSoup html :=
    if String.eqb html page_html then Ok page_soup
    else Raise (LibraryError "bs4.exceptions.ParserRejectedMarkup" false "");
  css_compile := type_selectors;
  bracketed_netloc_ok _ := true
|}.

Definition page_url : string := "https://example.com/dir/page.xml".

Definition page_config : SiteConfig :=
  mkSiteConfig "page" page_url "li" "a" "a" (Some "p") None.

(** A network that serves the page at its address, answers 404 below
    [https://example.com/missing/] and is unreachable elsewhere. *)
Definition outside : Outside := {|
  session_get u _ _ :=
    if String.eqb u page_url then Ok (mkResponse 200 page_html)
    else if PyStr.startswith "https://example.com/missing/" u
    then Ok (mkResponse 404 "")
    else Raise (LibraryError "requests.exceptions.ConnectionError" false "");
  now_date := "2024-05-01";
  now_hour := "09";
  build_report_generator _ _ :=
    Ok (fun markdown_file_path site => Ok ("report on " +:+ site,
                                             markdown_file_path +:+ ".report"))
|}.

Definition state : State :=
  register_site (__init__ [] ∅) page_config.

(** What the extractor makes of the page. *)
Definition page_items : list Item :=
  [mkItem "Hello" "https://example.com/p1" "";
   mkItem "Second  item" "https://example.com/dir/a/b" "Moretexthere"].

(** Single item nodes: one whose anchor carries a path-relative link and one
    with a heading and no anchor. *)
Definition relative_item : Loc :=
  ([], Tag "li" ∅ [Tag "a" {["href" := "a/b"]} [NavigableString "Title"]]).



(** An element whose text is spread over three strings. *)
Definition nested_text : Node :=
  Tag "a" ∅
    [NavigableString "Hello ";
     Tag "b" ∅ [NavigableString "big"];
     NavigableString " world"].

Definition nested_item : Loc := ([], Tag "li" ∅ [nested_text]).


Definition nbsp_url : string := String (PyStr.chr 160) "https://example.com".


End Fixture.

(** ** Further words and cases *)

Module Shape.

Import CustomSiteClient.

(** The item node has a title node whose stripped text is not empty. *)
Definition titled {L : Libraries} (config : SiteConfig) (node : Soup.Loc)
  : bool :=
  match select_one config.(title_selector) node with
  | Ok (Some title_node) => PyStr.truthy (Soup.get_text true title_node.2)
  | _ => false
  end.

(** [s.endswith("/")], as [os.path.join] tests it. *)
Definition ends_with_slash (s : string) : bool :=
  String.eqb (PyStr.drop (String.length s - 1) s) "/".

(** A path component that [os.path.join] appends behind a separator: not
    empty, no slash in front, none behind. *)
Definition relative_dir (s : string) : bool :=
  PyStr.truthy s && negb (PyStr.startswith "/" s) && negb (ends_with_slash s).

(** What the export writes for the item numbered [idx]. *)
Definition rendered (idx : nat) (item : Item) : list Chunk :=
  Entry idx item.(title) item.(link)
  :: (if PyStr.truthy item.(summary) then [SummaryLine item.(summary)] else []).

Definition is_summary_line (chunk : Chunk) : bool :=
  match chunk with
  | SummaryLine _ => true
  | _ => false
  end.

(** A string changed character by character. *)
Fixpoint map_chars (g : ascii -> ascii) (s : string) : string :=
  match s with
  | EmptyString => EmptyString
  | String c s' => String (g c) (map_chars g s')
  end.

(** A string that stripping leaves as it is, at either end. *)
Definition trimmed (s : string) : Prop :=
  PyStr.lstrip_by PyStr.isspace s = s /\ PyStr.rstrip_by PyStr.isspace s = s.

End Shape.

Module Cases.

Import Soup CustomSiteClient.

(** A page whose second anchor has an address that [urlsplit] refuses, and a
    later version of the page of [Fixture] with one new item. *)
Definition broken_html : string :=
  "<ul><li><a href=/ok>First</a></li><li><a href=//[x>Second</a></li></ul>".

Definition broken_soup : Node :=
  Tag "[document]" ∅
    [Tag "ul" ∅
       [Tag "li" ∅ [Tag "a" {["href" := "/ok"]} [NavigableString "First"]];
        Tag "li" ∅ [Tag "a" {["href" := "//[x"]} [NavigableString "Second"]]]].

Definition updated_html : string :=
  "<ul><li><a href=/p9>Fresh</a><p>Just in</p></li></ul>".

Definition updated_soup : Node :=
  Tag "[document]" ∅
    [Tag "ul" ∅
       [Tag "li" ∅
          [Tag "a" {["href" := "/p9"]} [NavigableString "Fresh"];
           Tag "p" ∅ [NavigableString "Just in"]]]].

Definition libraries : Libraries := {|
  BeautifulSoup html :=
    if String.eqb html Fixture.page_html then Ok Fixture.page_soup
    else if String.eqb html broken_html then Ok broken_soup
    else if String.eqb html updated_html then Ok updated_soup
    else Raise (LibraryError "bs4.exceptions.ParserRejectedMarkup" false "");
  css_compile := Fixture.type_selectors;
  bracketed_netloc_ok _ := true
|}.

Definition broken_url : string := "https://example.com/broken.html".

Definition broken_config : SiteConfig :=
  mkSiteConfig "broken" broken_url "li" "a" "a" None None.

(** The network of [Fixture], which also serves the broken page; and the
    same network later in the hour, when the page has changed. *)
Definition outside : Outside := {|
  session_get u _ _ :=
    if String.eqb u Fixture.page_url then Ok (mkResponse 200 Fixture.page_html)
    else if String.eqb u broken_url then Ok (mkResponse 200 broken_html)
    else Raise (LibraryError "requests.exceptions.ConnectionError" false "");
  now_date := "2024-05-01";
  now_hour := "09";
  build_report_generator := Fixture.outside.(@build_report_generator)
|}.

Definition later : Outside := {|
  session_get u _ _ :=
    if String.eqb u Fixture.page_url then Ok (mkResponse 200 updated_html)
    else Raise (LibraryError "requests.exceptions.ConnectionError" false "");
  now_date := "2024-05-01";
  now_hour := "09";
  build_report_generator := Fixture.outside.(@build_report_generator)
|}.

Definition state : State := register_site Fixture.state broken_config.

(** The page registered under a name that starts with a slash. *)
Definition rooted_state : State :=
  register_site Fixture.state
    (mkSiteConfig "/tmp/x" Fixture.page_url "li" "a" "a" None None).

(** The matched item nodes of the broken page, and the second of them. *)
Definition broken_nodes : list Loc :=
  match select (L := libraries) "li" ([], broken_soup) with
  | Ok found => found
  | Raise _ => []
  end.

Definition bad_node : Loc := nth 1 broken_nodes ([], broken_soup).

(** The page exported twice for the same hour, the page having changed in
    between. *)
Definition after_first : State :=
  (export_site_items (L := libraries) (O := outside) Fixture.state "page"
     (Some "2024-05-01") (Some "09")).2.

Definition after_second : State :=
  (export_site_items (L := libraries) (O := later) after_first "page"
     (Some "2024-05-01") (Some "09")).2.

End Cases.

(** * Properties *)

(** ** Strings *)

Module PyStrFacts.

Import PyStr.


Lemma truthy_true s : truthy s = true <-> s <> EmptyString.
Proof. destruct s; simpl; split; congruence. Qed.

Lemma app_empty_r s : s +:+ EmptyString = s.
Proof. induction s as [|c s IH]; simpl; [reflexivity | now rewrite IH]. Qed.

Lemma app_assoc a b c : (a +:+ b) +:+ c = a +:+ b +:+ c.
Proof. induction a as [|x a IH]; simpl; [reflexivity | now rewrite IH]. Qed.

Lemma app_eq_empty a b :
  a +:+ b = EmptyString <-> a = EmptyString /\ b = EmptyString.
Proof.
  destruct a; simpl; split.
  - intros ->. now split.
  - now intros [_ ->].
  - discriminate.
  - intros [? _]. discriminate.
Qed.

Lemma forallb_app p a b : forallb p (a +:+ b) = forallb p a && forallb p b.
Proof.
  induction a as [|c a IH]; simpl; [reflexivity|].
  now rewrite IH, andb_assoc.
Qed.

(** *** Stripping *)

Lemma lstrip_by_split p s :
  exists l, s = l +:+ lstrip_by p s /\ forallb p l = true.
Proof.
  induction s as [|c s [l [Hs Hl]]]; simpl.
  - now exists EmptyString.
  - destruct (p c) eqn:Hc.
    + exists (String c l). simpl. rewrite Hc, Hl. split; [congruence | reflexivity].
    + now exists EmptyString.
Qed.

Lemma rstrip_by_split p s :
  exists r, s = rstrip_by p s +:+ r /\ forallb p r = true.
Proof.
  induction s as [|c s [r [Hs Hr]]]; simpl.
  - now exists EmptyString.
  - destruct (rstrip_by p s) as [|d t] eqn:Ht.
    + simpl in Hs. subst r. destruct (p c) eqn:Hc.
      * exists (String c s). simpl. now rewrite Hc, Hr.
      * exists s. now split.
    + exists r. simpl. split; [now rewrite Hs at 1 | assumption].
Qed.

Lemma lstrip_by_empty p s :
  lstrip_by p s = EmptyString <-> forallb p s = true.
Proof.
  induction s as [|c s IH]; simpl; [tauto|].
  destruct (p c); simpl; [assumption|]. split; discriminate.
Qed.

Lemma rstrip_by_empty p s :
  rstrip_by p s = EmptyString <-> forallb p s = true.
Proof.
  induction s as [|c s IH]; simpl; [tauto|].
  destruct (rstrip_by p s) as [|d t].
  - destruct (p c); simpl.
    + tauto.
    + split; discriminate.
  - split; [discriminate|].
    intros H. apply andb_true_iff in H as [_ H].
    apply IH in H. discriminate.
Qed.

Lemma forallb_lstrip_by p q s :
  forallb q s = true -> forallb q (lstrip_by p s) = true.
Proof.
  induction s as [|c s IH]; simpl; [tauto|].
  intros H. destruct (p c).
  - apply andb_true_iff in H as [_ H]. now apply IH.
  - exact H.
Qed.

Lemma strip_by_empty p s :
  strip_by p s = EmptyString <-> forallb p s = true.
Proof.
  unfold strip_by. rewrite rstrip_by_empty. split.
  - intros H. destruct (lstrip_by_split p s) as [l [Hs Hl]].
    rewrite Hs, forallb_app, Hl, H. reflexivity.
  - apply forallb_lstrip_by.
Qed.

Lemma strip_empty s : strip s = EmptyString <-> forallb isspace s = true.
Proof. apply strip_by_empty. Qed.

(** The stripped string sits inside the original one, with only whitespace
    on either side of it. *)
Lemma strip_split s :
  exists l r,
    s = l +:+ strip s +:+ r
    /\ forallb isspace l = true /\ forallb isspace r = true.
Proof.
  unfold strip, strip_by.
  destruct (lstrip_by_split isspace s) as [l [Hs Hl]].
  destruct (rstrip_by_split isspace (lstrip_by isspace s)) as [r [Ht Hr]].
  exists l, r. split; [|now split].
  rewrite Hs at 1. now rewrite Ht at 1.
Qed.

Lemma lstrip_by_first p s c t : lstrip_by p s = String c t -> p c = false.
Proof.
  induction s as [|d s IH]; simpl; [discriminate|].
  destruct (p d) eqn:Hd; [assumption|].
  intros [= -> _]. exact Hd.
Qed.

Lemma rstrip_by_last p s t c :
  rstrip_by p s = t +:+ String c EmptyString -> p c = false.
Proof.
  revert t. induction s as [|d s IH]; intros t; simpl.
  - destruct t; discriminate.
  - destruct (rstrip_by p s) as [|e r] eqn:Hr.
    + destruct (p d) eqn:Hd.
      * destruct t; discriminate.
      * destruct t as [|x t]; simpl.
        -- intros [= ->]. exact Hd.
        -- intros [= _ H]. destruct t; discriminate.
    + destruct t as [|x t]; simpl.
      * discriminate.
      * intros [= _ H]. now apply (IH t).
Qed.

Lemma rstrip_by_first p s c t :
  rstrip_by p s = String c t -> exists t', s = String c t'.
Proof.
  destruct s as [|d s]; simpl; [discriminate|].
  destruct (rstrip_by p s); [destruct (p d)|]; intros [= -> _]; eauto.
Qed.

Lemma strip_first s c t : strip s = String c t -> isspace c = false.
Proof.
  unfold strip, strip_by. intros H.
  apply rstrip_by_first in H as [t' H].
  now apply lstrip_by_first in H.
Qed.

Lemma strip_last s t c :
  strip s = t +:+ String c EmptyString -> isspace c = false.
Proof. apply rstrip_by_last. Qed.

(** A string that neither starts nor ends with whitespace is its own strip. *)
Lemma rstrip_by_id p s t c :
  p c = false -> s = t +:+ String c EmptyString -> rstrip_by p s = s.
Proof.
  intros Hc. revert t. induction s as [|d s IH]; intros t Hs.
  - reflexivity.
  - simpl. destruct t as [|x t]; simpl in Hs.
    + injection Hs as -> ->. simpl. now rewrite Hc.
    + injection Hs as -> Hs. rewrite (IH t Hs).
      rewrite Hs. destruct t; reflexivity.
Qed.

End PyStrFacts.

(** ** Text extraction and selection *)

Module SoupFacts.

Import PyStr PyStrFacts Soup CustomSiteClient.

Lemma join_empty_cons w ws :
  join EmptyString (w :: ws) = w +:+ join EmptyString ws.
Proof. destruct ws; simpl; [now rewrite app_empty_r | reflexivity]. Qed.

Lemma join_empty_blank l :
  forallb isspace (join EmptyString l) = true
  <-> Forall (fun s => forallb isspace s = true) l.
Proof.
  induction l as [|w ws IH].
  - simpl. split; [constructor | reflexivity].
  - rewrite join_empty_cons, forallb_app, andb_true_iff, IH.
    split.
    + intros [? ?]. now constructor.
    + intros H. inversion H. now split.
Qed.

Lemma omap_keep_all (l : list string) :
  omap (fun s => Some s) l = l.
Proof. induction l as [|s l IH]; simpl; [reflexivity | now f_equal]. Qed.

Lemma join_omap_strip (l : list string) :
  join EmptyString
    (omap (fun s => let s' := strip s in
                    if truthy s' then Some s' else None) l)
  = join EmptyString (map strip l).
Proof.
  induction l as [|s l IH]; [reflexivity|].
  rewrite map_cons, join_empty_cons, <- IH.
  change (omap ?f (s :: l))
    with (match f s with Some y => y :: omap f l | None => omap f l end).
  cbv beta zeta.
  destruct (strip s) eqn:Hs; cbn [truthy]; [reflexivity|].
  now rewrite join_empty_cons.
Qed.

(** The text content is the concatenation of the strings. *)
Lemma text_content_strings n :
  Spec.text_content n = join EmptyString (all_strings n).
Proof.
  unfold Spec.text_content, get_text, get_text_sep. f_equal.
  apply omap_keep_all.
Qed.

(** With [strip=True] every string is stripped on its own before the
    strings are concatenated. *)
Lemma get_text_strip_strings n :
  get_text true n = join EmptyString (map strip (all_strings n)).
Proof. apply join_omap_strip. Qed.

(** Nothing is extracted exactly when the text content is blank. *)
Lemma get_text_strip_empty n :
  get_text true n = EmptyString
  <-> strip (Spec.text_content n) = EmptyString.
Proof.
  rewrite get_text_strip_strings, text_content_strings, strip_empty,
    join_empty_blank.
  induction (all_strings n) as [|s l IH].
  - simpl. split; [constructor | reflexivity].
  - rewrite map_cons, join_empty_cons, app_eq_empty, IH, strip_empty.
    split.
    + intros [? ?]. now constructor.
    + intros H. inversion H. now split.
Qed.

Lemma get_text_strip_single n s :
  all_strings n = [s] ->
  get_text true n = strip s /\ Spec.text_content n = s.
Proof.
  intros H. rewrite get_text_strip_strings, text_content_strings, H.
  now split.
Qed.

Lemma filter_sublist {A} (f : A -> bool) (l : list A) :
  sublist (List.filter f l) l.
Proof.
  induction l as [|x l IH]; simpl; [constructor|].
  destruct (f x); now constructor.
Qed.

Lemma head_filter_some {A} (f : A -> bool) (l : list A) x :
  head (List.filter f l) = Some x ->
  exists before after,
    l = before ++ x :: after /\ f x = true
    /\ Forall (fun y => f y = false) before.
Proof.
  induction l as [|y l IH]; simpl; [discriminate|].
  destruct (f y) eqn:Hy; simpl.
  - intros [= ->]. exists [], l. now repeat split.
  - intros H. destruct (IH H) as (b & a & -> & Hx & Hb).
    exists (y :: b), a. repeat split; [assumption|]. now constructor.
Qed.

Lemma head_filter_none {A} (f : A -> bool) (l : list A) :
  head (List.filter f l) = None -> Forall (fun y => f y = false) l.
Proof.
  induction l as [|y l IH]; simpl; [constructor|].
  destruct (f y) eqn:Hy; simpl; [discriminate|].
  intros H. constructor; auto.
Qed.

Section Selection.
Context {L : Libraries}.

Lemma select_document_order selector scope found :
  select selector scope = Ok found ->
  sublist found (descendants scope.1 scope.2).
Proof.
  unfold select. destruct (css_compile selector) as [m|e]; simpl; [|discriminate].
  intros [= <-]. apply filter_sublist.
Qed.

Lemma select_one_head selector scope :
  select_one selector scope = (found ← select selector scope; Ok (head found)).
Proof. reflexivity. Qed.

(** [select_one] returns the first element below the scope that the selector
    accepts, and [None] when it accepts none of them. *)
Lemma select_one_first selector scope m :
  css_compile selector = Ok m ->
  match select_one selector scope with
  | Ok (Some x) =>
      exists before after,
        descendants scope.1 scope.2 = before ++ x :: after
        /\ is_tag x.2 = true /\ m scope x = true
        /\ Forall (fun y => is_tag y.2 && m scope y = false) before
  | Ok None =>
      Forall (fun y => is_tag y.2 && m scope y = false)
        (descendants scope.1 scope.2)
  | Raise _ => False
  end.
Proof.
  intros Hm. unfold select_one, select. rewrite Hm. simpl.
  destruct (head _) as [x|] eqn:Hh.
  - apply head_filter_some in Hh as (b & a & Hd & Hx & Hb).
    apply andb_true_iff in Hx as [? ?]. exists b, a. now repeat split.
  - now apply head_filter_none in Hh.
Qed.

End Selection.

End SoupFacts.

(** ** The extractor *)

Module ExtractorFacts.

Import PyStr PyStrFacts Soup SoupFacts CustomSiteClient.

Lemma bind_ok {A B} (r : result A) (k : A -> result B) (b : B) :
  r ≫= k = Ok b -> exists a, r = Ok a /\ k a = Ok b.
Proof. destruct r as [a|e]; simpl; [eauto | discriminate]. Qed.

(** Every element of [omap f l] comes from its own element of [l], in order. *)
Lemma omap_sources {A B} (f : A -> option B) (l : list A) :
  exists l', sublist l' l /\ Forall2 (fun x y => f x = Some y) l' (omap f l).
Proof.
  induction l as [|x l (l' & Hs & Hf)]; simpl.
  - exists []. split; constructor.
  - destruct (f x) as [y|] eqn:Hx.
    + exists (x :: l'). split; now constructor.
    + exists l'. split; [now constructor | assumption].
Qed.

Section Extractor.
Context {L : Libraries}.
Implicit Types (config : SiteConfig) (node : Loc) (item : Item).

(** What an emitted item is made of. *)
Lemma parse_item_node_some config node item :
  parse_item_node config node = Ok (Some item) ->
  exists title_node link_node,
    select_one config.(title_selector) node = Ok (Some title_node)
    /\ find_link_node config node title_node = Ok link_node
    /\ (if truthy (raw_link_of link_node)
        then UrlParse.urljoin (link_base config) (raw_link_of link_node)
        else Ok EmptyString) = Ok item.(link)
    /\ item.(title) = get_text true title_node.2
    /\ item.(title) <> EmptyString
    /\ find_summary config node = Ok item.(summary).
Proof.
  unfold parse_item_node. intros H.
  apply bind_ok in H as ([title_node|] & Ht & H); [|discriminate].
  apply bind_ok in H as (link_node & Hl & H).
  apply bind_ok in H as (full_link & Hf & H).
  apply bind_ok in H as (summary & Hs & H).
  destruct (truthy (get_text true title_node.2)) eqn:Htitle; [|discriminate].
  injection H as <-. simpl.
  exists title_node, link_node. repeat split; try assumption.
  now apply truthy_true.
Qed.

Lemma emitted_none_without_title config node :
  select_one config.(title_selector) node = Ok None ->
  Spec.emitted config node = None.
Proof.
  intros H. unfold Spec.emitted, parse_item_node. now rewrite H.
Qed.

Lemma emitted_none_blank_title config node title_node :
  select_one config.(title_selector) node = Ok (Some title_node) ->
  strip (Spec.text_content title_node.2) = EmptyString ->
  Spec.emitted config node = None.
Proof.
  intros Ht Hb. apply get_text_strip_empty in Hb.
  unfold Spec.emitted.
  destruct (parse_item_node config node) as [[item|]|e] eqn:Hp; try reflexivity.
  apply parse_item_node_some in Hp
    as (t & l & Ht' & _ & _ & Htitle & Hne & _).
  rewrite Ht in Ht'. injection Ht' as <-. congruence.
Qed.

Lemma emitted_some config node item :
  Spec.emitted config node = Some item <->
  parse_item_node config node = Ok (Some item).
Proof.
  unfold Spec.emitted.
  destruct (parse_item_node config node) as [r|e]; split; congruence.
Qed.

(** The loop appends, in order, what each node emits. *)
Lemma parse_loop_ok config item_nodes parsed_items items :
  parse_loop config item_nodes parsed_items = Ok items ->
  items = parsed_items ++ omap (Spec.emitted config) item_nodes.
Proof.
  revert parsed_items.
  induction item_nodes as [|node rest IH]; intros acc; simpl.
  - intros [= <-]. now rewrite app_nil_r.
  - intros H. apply bind_ok in H as (r & Hr & H).
    apply IH in H. unfold Spec.emitted at 1. rewrite Hr.
    destruct r as [item|]; [|assumption].
    now rewrite <- List.app_assoc in H.
Qed.

(** The loop ends with a list whenever no node raises. *)
Lemma parse_loop_total config item_nodes parsed_items :
  Forall (fun node => exists r, parse_item_node config node = Ok r) item_nodes ->
  parse_loop config item_nodes parsed_items
  = Ok (parsed_items ++ omap (Spec.emitted config) item_nodes).
Proof.
  intros H. revert parsed_items.
  induction H as [|node rest [r Hr] _ IH]; intros acc; simpl.
  - now rewrite app_nil_r.
  - unfold Spec.emitted at 1. rewrite Hr. simpl. rewrite IH.
    destruct r; [now rewrite <- List.app_assoc | reflexivity].
Qed.

Lemma _parse_items_ok html config items :
  _parse_items html config = Ok items ->
  exists soup item_nodes,
    BeautifulSoup html = Ok soup
    /\ select config.(item_selector) ([], soup) = Ok item_nodes
    /\ items = omap (Spec.emitted config) item_nodes.
Proof.
  unfold _parse_items. intros H.
  apply bind_ok in H as (soup & Hsoup & H).
  apply bind_ok in H as (item_nodes & Hsel & H).
  apply parse_loop_ok in H. now exists soup, item_nodes.
Qed.

(** C1 (title gate): whatever the markup and the configuration, every item the
    extractor returns has a non-empty title; the items are exactly what the
    matched item nodes emit, and a node emits nothing when none of its
    descendants matches [title_selector] or when the text of its title node
    is empty after trimming. *)
Theorem C1_title_gate html config items :
  _parse_items html config = Ok items ->
  Forall (fun item => item.(title) <> EmptyString) items
  /\ exists soup item_nodes,
       BeautifulSoup html = Ok soup
       /\ select config.(item_selector) ([], soup) = Ok item_nodes
       /\ items = omap (Spec.emitted config) item_nodes
       /\ forall node,
            select_one config.(title_selector) node = Ok None
            \/ (exists title_node,
                  select_one config.(title_selector) node = Ok (Some title_node)
                  /\ strip (Spec.text_content title_node.2) = EmptyString) ->
            Spec.emitted config node = None.
Proof.
  intros H. destruct (_parse_items_ok _ _ _ H) as (soup & nodes & Hs & Hn & Hi).
  split.
  - apply Forall_forall. intros item Hin. rewrite Hi in Hin.
    apply list_elem_of_omap in Hin as (node & _ & He).
    apply emitted_some, parse_item_node_some in He.
    now destruct He as (_ & _ & _ & _ & _ & _ & Hne & _).
  - exists soup, nodes. repeat split; try assumption.
    intros node [Hnone | (t & Ht & Hb)].
    + now apply emitted_none_without_title.
    + now apply emitted_none_blank_title with t.
Qed.

(** C5 (order preservation): the matched item nodes are listed in document
    order, and the returned items are what these nodes emit, one item per
    emitting node, in the order of the nodes, none merged and none moved. *)
Theorem C5_order_preservation html config items :
  _parse_items html config = Ok items ->
  exists soup item_nodes emitting,
    BeautifulSoup html = Ok soup
    /\ select config.(item_selector) ([], soup) = Ok item_nodes
    /\ sublist item_nodes (descendants [] soup)
    /\ items = omap (Spec.emitted config) item_nodes
    /\ sublist emitting item_nodes
    /\ Forall2 (fun node item => parse_item_node config node = Ok (Some item))
         emitting items.
Proof.
  intros H. destruct (_parse_items_ok _ _ _ H) as (soup & nodes & Hs & Hn & Hi).
  destruct (omap_sources (Spec.emitted config) nodes) as (emitting & Hsub & Hf).
  exists soup, nodes, emitting. repeat split; try assumption.
  - exact (select_document_order _ _ _ Hn).
  - rewrite Hi. eapply Forall2_impl; [exact Hf|].
    intros node item. apply emitted_some.
Qed.

End Extractor.

Section Witnesses.
Local Existing Instance Fixture.libraries.

Lemma C1_title_gate_witness :
  _parse_items Fixture.page_html Fixture.page_config = Ok Fixture.page_items
  /\ Forall (fun item => item.(title) <> EmptyString) Fixture.page_items.
Proof.
  split; [reflexivity|].
  apply (C1_title_gate Fixture.page_html Fixture.page_config). reflexivity.
Defined.

Lemma C5_order_preservation_witness :
  exists soup item_nodes emitting,
    BeautifulSoup Fixture.page_html = Ok soup
    /\ select Fixture.page_config.(item_selector) ([], soup) = Ok item_nodes
    /\ sublist item_nodes (descendants [] soup)
    /\ Fixture.page_items
       = omap (Spec.emitted Fixture.page_config) item_nodes
    /\ sublist emitting item_nodes
    /\ Forall2 (fun node item =>
                  parse_item_node Fixture.page_config node = Ok (Some item))
         emitting Fixture.page_items.
Proof.
  apply (C5_order_preservation Fixture.page_html Fixture.page_config).
  reflexivity.
Defined.

End Witnesses.

End ExtractorFacts.

(** ** Joining URLs *)

Module UrlFacts.

Import PyStr PyStrFacts UrlParse.

(** Run a bind whose first computation has returned. *)
Ltac bind_step :=
  match goal with
  | |- context [Ok ?a ≫= ?k] => change (Ok a ≫= k) with (k a); cbv beta
  end.

Section Join.
Context {L : Libraries}.


(** A link with the scheme of the base and a network location of its own is
    put together again from its own components: the base plays no part. *)
Lemma urljoin_own_netloc base url b u :
  base <> EmptyString -> url <> EmptyString ->
  urlparse base EmptyString = Ok b ->
  urlparse url b.(scheme) = Ok u ->
  u.(scheme) = b.(scheme) ->
  mem u.(scheme) uses_relative = true ->
  mem u.(scheme) uses_netloc = true ->
  u.(netloc) <> EmptyString ->
  urljoin base url = Ok (urlunparse u).
Proof.
  intros Hb Hu Pb Pu Hs Hr Hn Hl. unfold urljoin.
  apply truthy_true in Hb, Hu, Hl.
  rewrite Hb, Hu, Pb. bind_step. rewrite Pu. bind_step.
  rewrite Hr, Hn, Hl, Hs, String.eqb_refl. reflexivity.
Qed.

(** The examples of the specification, and a path-relative link. *)
Lemma urljoin_root_relative :
  urljoin "https://example.com" "/a/b" = Ok "https://example.com/a/b".
Proof. reflexivity. Qed.

Lemma urljoin_absolute :
  urljoin "https://example.com" "https://other.com/x"
  = Ok "https://other.com/x".
Proof. reflexivity. Qed.

Lemma urljoin_path_relative :
  urljoin "https://example.com/dir/page.xml" "a/b"
  = Ok "https://example.com/dir/a/b".
Proof. reflexivity. Qed.

End Join.

End UrlFacts.

(** ** Links *)

Module LinkFacts.

Import PyStr PyStrFacts Soup SoupFacts CustomSiteClient ExtractorFacts.

Section Links.
Context {L : Libraries}.
Implicit Types (config : SiteConfig) (node : Loc) (item : Item).

Lemma raw_link_of_href ctx name attrs kids h :
  attrs !! "href" = Some h -> strip h <> EmptyString ->
  raw_link_of (Some (ctx, Tag name attrs kids)) = strip h.
Proof.
  intros Hh Hne. unfold raw_link_of. simpl. rewrite Hh. simpl.
  apply truthy_true in Hne. now rewrite Hne.
Qed.

Lemma raw_link_of_text ctx name attrs kids :
  attrs !! "href" = None
  \/ (exists h, attrs !! "href" = Some h /\ strip h = EmptyString) ->
  raw_link_of (Some (ctx, Tag name attrs kids))
  = get_text true (Tag name attrs kids).
Proof.
  unfold raw_link_of. simpl. intros [-> | (h & -> & Hh)]; simpl.
  - reflexivity.
  - now rewrite Hh.
Qed.

Lemma link_of_emitted config node item :
  parse_item_node config node = Ok (Some item) ->
  exists title_node link_node,
    select_one config.(title_selector) node = Ok (Some title_node)
    /\ find_link_node config node title_node = Ok link_node
    /\ (raw_link_of link_node <> EmptyString ->
        UrlParse.urljoin (link_base config) (raw_link_of link_node)
        = Ok item.(link))
    /\ (raw_link_of link_node = EmptyString -> item.(link) = EmptyString).
Proof.
  intros H. apply parse_item_node_some in H
    as (t & l & Ht & Hl & Hlink & _).
  exists t, l. repeat split; try assumption.
  - intros Hne. apply truthy_true in Hne. now rewrite Hne in Hlink.
  - intros He. rewrite He in Hlink. simpl in Hlink. congruence.
Qed.

(** C2, as the code has it: the link node is the title node when
    [link_selector] is the empty string and otherwise the first element below
    the item node, in document order, that [link_selector] accepts (none when
    it accepts none); the raw link is the trimmed [href] attribute of the link
    node when that is not empty, and otherwise the strings of the link node,
    each trimmed, put together, which for a node with a single string is its
    text content, trimmed; with no link node there is no raw link. *)
Theorem C2_link_strategy config node title_node :
  (config.(link_selector) = EmptyString ->
   find_link_node config node title_node = Ok (Some title_node))
  /\ (config.(link_selector) <> EmptyString ->
      find_link_node config node title_node
      = select_one config.(link_selector) node)
  /\ (forall m, css_compile config.(link_selector) = Ok m ->
        match select_one config.(link_selector) node with
        | Ok (Some link_node) =>
            exists before after,
              descendants node.1 node.2 = before ++ link_node :: after
              /\ is_tag link_node.2 = true /\ m node link_node = true
              /\ Forall (fun y => is_tag y.2 && m node y = false) before
        | Ok None =>
            Forall (fun y => is_tag y.2 && m node y = false)
              (descendants node.1 node.2)
        | Raise _ => False
        end)
  /\ (forall ctx name attrs kids h,
        attrs !! "href" = Some h -> strip h <> EmptyString ->
        raw_link_of (Some (ctx, Tag name attrs kids)) = strip h)
  /\ (forall ctx name attrs kids,
        attrs !! "href" = None
        \/ (exists h, attrs !! "href" = Some h /\ strip h = EmptyString) ->
        raw_link_of (Some (ctx, Tag name attrs kids))
        = join EmptyString (map strip (all_strings (Tag name attrs kids)))
        /\ forall s, all_strings (Tag name attrs kids) = [s] ->
             raw_link_of (Some (ctx, Tag name attrs kids))
             = strip (Spec.text_content (Tag name attrs kids)))
  /\ raw_link_of None = EmptyString.
Proof.
  split; [|split; [|split; [|split; [|split]]]].
  - intros He. unfold find_link_node. now rewrite He.
  - intros Hne. unfold find_link_node. apply truthy_true in Hne.
    now rewrite Hne.
  - intros m Hm. now apply select_one_first.
  - apply raw_link_of_href.
  - intros ctx name attrs kids Hh.
    rewrite (raw_link_of_text _ _ _ _ Hh). split.
    + apply get_text_strip_strings.
    + intros s Hs.
      destruct (get_text_strip_single _ _ Hs) as [-> ->]. reflexivity.
  - reflexivity.
Qed.


(** C4, as the code has it: when [base_url] is absent every raw link is
    joined to [config.url] itself, so a path-relative link is resolved
    against the directory of that URL and not against its origin: with the
    URL [https://example.com/dir/page.xml] the raw link [a/b] becomes
    [https://example.com/dir/a/b]. *)
Theorem C4_relative_links_join_url config node item :
  config.(base_url) = None ->
  parse_item_node config node = Ok (Some item) ->
  (exists title_node link_node,
     select_one config.(title_selector) node = Ok (Some title_node)
     /\ find_link_node config node title_node = Ok link_node
     /\ (raw_link_of link_node <> EmptyString ->
         UrlParse.urljoin config.(url) (raw_link_of link_node)
         = Ok item.(link)))
  /\ UrlParse.urljoin "https://example.com/dir/page.xml" "a/b"
     = Ok "https://example.com/dir/a/b".
Proof.
  intros Hb H. split; [|reflexivity].
  apply link_of_emitted in H as (t & l & Ht & Hl & Hlink & _).
  exists t, l. repeat split; try assumption.
  unfold link_base in Hlink. now rewrite Hb in Hlink.
Qed.

End Links.

Section Witnesses.
Local Existing Instance Fixture.libraries.

Lemma C2_link_strategy_witness :
  raw_link_of
    (Some ([], Tag "a" {["href" := "a/b"]} [NavigableString "Title"]))
  = strip "a/b"
  /\ raw_link_of (Some ([], Fixture.nested_text))
     = join EmptyString (map strip (all_strings Fixture.nested_text)).
Proof.
  pose proof (C2_link_strategy Fixture.page_config Fixture.relative_item
                Fixture.relative_item) as (_ & _ & _ & H4 & H5 & _).
  split.
  - apply H4; [apply lookup_singleton_eq | vm_compute; discriminate].
  - apply (proj1 (H5 [] "a" ∅ _ (or_introl (lookup_empty _)))).
Defined.

(** The claim C2 as it was stated fails where it speaks of the text content,
    trimmed: the anchor with the content [Hello <b>big</b> world] and no
    [href] has the text content [Hello big world], which trimming leaves as
    it is, but as a link node it gives the raw link [Hellobigworld], and the
    item node around it gets its link from that. *)
Lemma C2_counterexample :
  get Fixture.nested_text "href" EmptyString = EmptyString
  /\ strip (Spec.text_content Fixture.nested_text) = "Hello big world"
  /\ (exists link_node,
        select_one Fixture.page_config.(link_selector) Fixture.nested_item
        = Ok (Some link_node)
        /\ link_node.2 = Fixture.nested_text
        /\ raw_link_of (Some link_node) = "Hellobigworld"
        /\ raw_link_of (Some link_node)
           <> strip (Spec.text_content link_node.2))
  /\ parse_item_node Fixture.page_config Fixture.nested_item
     = Ok (Some (mkItem "Hellobigworld"
                   "https://example.com/dir/Hellobigworld" EmptyString)).
Proof.
  split; [reflexivity|]. split; [reflexivity|]. split; [|reflexivity].
  eexists. split; [reflexivity|]. split; [reflexivity|].
  split; [reflexivity | discriminate].
Qed.


Lemma C4_relative_links_join_url_witness :
  Fixture.page_config.(base_url) = None
  /\ parse_item_node Fixture.page_config Fixture.relative_item
     = Ok (Some (mkItem "Title" "https://example.com/dir/a/b" EmptyString))
  /\ UrlParse.urljoin "https://example.com/dir/page.xml" "a/b"
     = Ok "https://example.com/dir/a/b".
Proof.
  split; [reflexivity|]. split; [reflexivity|].
  apply (C4_relative_links_join_url Fixture.page_config Fixture.relative_item
           (mkItem "Title" "https://example.com/dir/a/b" EmptyString));
    reflexivity.
Defined.

(** The claim C4 as it was stated fails: with no [base_url] and the URL
    [https://example.com/dir/page.xml], the item node whose anchor has the
    path-relative link [a/b] gets [https://example.com/dir/a/b], which is not
    the link resolved against the origin. *)
Lemma C4_counterexample :
  Fixture.page_config.(base_url) = None
  /\ Fixture.page_config.(url) = "https://example.com/dir/page.xml"
  /\ (exists title_node,
        select_one Fixture.page_config.(title_selector) Fixture.relative_item
        = Ok (Some title_node)
        /\ raw_link_of (Some title_node) = "a/b")
  /\ exists item,
       parse_item_node Fixture.page_config Fixture.relative_item
       = Ok (Some item)
       /\ item.(link) = "https://example.com/dir/a/b"
       /\ item.(link) <> "https://example.com/a/b".
Proof.
  split; [reflexivity|]. split; [reflexivity|]. split.
  - eexists. split; reflexivity.
  - eexists. split; [reflexivity|]. split; [reflexivity | discriminate].
Qed.

End Witnesses.

End LinkFacts.

(** ** Whitespace *)

Module TextFacts.

Import PyStr PyStrFacts Soup SoupFacts CustomSiteClient ExtractorFacts.

Section Text.
Context {L : Libraries}.

Lemma find_summary_ok config node summary :
  find_summary config node = Ok summary ->
  summary = EmptyString
  \/ exists selector summary_node,
       config.(summary_selector) = Some selector
       /\ select_one selector node = Ok (Some summary_node)
       /\ summary = get_text true summary_node.2.
Proof.
  unfold find_summary.
  destruct config.(summary_selector) as [sel|]; [|intros [= <-]; now left].
  destruct (truthy sel); [|intros [= <-]; now left].
  intros H. apply bind_ok in H as ([sn|] & Hs & H); injection H as <-.
  - right. now exists sel, sn.
  - now left.
Qed.

(** C9, as the code has it: the text taken from a title, summary or link node
    is the concatenation of the strings below the node, each stripped of its
    own leading and trailing whitespace; a stripped string is the original
    one without a whitespace prefix and a whitespace suffix, so whitespace
    inside a string stays, while whitespace where two strings meet goes; for a
    node with a single string the result is the text content with only
    leading and trailing whitespace removed. *)
Theorem C9_strings_stripped_one_by_one config node item :
  parse_item_node config node = Ok (Some item) ->
  (exists title_node,
     select_one config.(title_selector) node = Ok (Some title_node)
     /\ item.(title) = get_text true title_node.2)
  /\ (item.(summary) = EmptyString
      \/ exists selector summary_node,
           config.(summary_selector) = Some selector
           /\ select_one selector node = Ok (Some summary_node)
           /\ item.(summary) = get_text true summary_node.2)
  /\ (forall ctx name attrs kids,
        attrs !! "href" = None ->
        raw_link_of (Some (ctx, Tag name attrs kids))
        = get_text true (Tag name attrs kids))
  /\ forall n : Node,
       get_text true n = join EmptyString (map strip (all_strings n))
       /\ Spec.text_content n = join EmptyString (all_strings n)
       /\ (forall s, s ∈ all_strings n ->
             exists l r,
               s = l +:+ strip s +:+ r
               /\ forallb isspace l = true /\ forallb isspace r = true)
       /\ (forall s, all_strings n = [s] ->
             get_text true n = strip (Spec.text_content n)).
Proof.
  intros H. apply parse_item_node_some in H
    as (t & l & Ht & _ & _ & Htitle & _ & Hsum).
  split; [now exists t|]. split; [now apply find_summary_ok|]. split.
  - intros ctx name attrs kids Hh. apply LinkFacts.raw_link_of_text. now left.
  - intros n. split; [apply get_text_strip_strings|].
    split; [apply text_content_strings|]. split.
    + intros s _. apply strip_split.
    + intros s Hs. destruct (get_text_strip_single n s Hs) as [-> ->].
      reflexivity.
Qed.

End Text.

Section Witnesses.
Local Existing Instance Fixture.libraries.

Lemma C9_strings_stripped_one_by_one_witness :
  parse_item_node Fixture.page_config Fixture.nested_item
  = Ok (Some (mkItem "Hellobigworld" "https://example.com/dir/Hellobigworld"
                EmptyString))
  /\ exists title_node,
       select_one Fixture.page_config.(title_selector) Fixture.nested_item
       = Ok (Some title_node)
       /\ "Hellobigworld" = get_text true title_node.2.
Proof.
  split; [reflexivity|].
  apply (C9_strings_stripped_one_by_one Fixture.page_config Fixture.nested_item
           (mkItem "Hellobigworld" "https://example.com/dir/Hellobigworld"
              EmptyString)).
  reflexivity.
Defined.

(** The claim C9 as it was stated fails: the anchor with the content
    [Hello <b>big</b> world] has the text content [Hello big world], which
    trimming leaves as it is, but the extracted title is [Hellobigworld]: the
    spaces next to the nested element are gone. *)
Lemma C9_counterexample :
  Spec.text_content Fixture.nested_text = "Hello big world"
  /\ strip (Spec.text_content Fixture.nested_text) = "Hello big world"
  /\ get_text true Fixture.nested_text = "Hellobigworld"
  /\ (exists item,
        parse_item_node Fixture.page_config Fixture.nested_item
        = Ok (Some item)
        /\ item.(title) = "Hellobigworld")
  /\ get_text true Fixture.nested_text
     <> strip (Spec.text_content Fixture.nested_text).
Proof.
  repeat split; try reflexivity.
  - eexists. split; reflexivity.
  - discriminate.
Qed.

End Witnesses.

End TextFacts.

(** ** Fetching and exporting *)

Module OrchestrationFacts.

Import PyStrFacts Soup CustomSiteClient ExtractorFacts.

Lemma slice_to_nonneg {A} (items : list A) (stop : Z) :
  (0 <= stop)%Z -> slice_to items stop = take (Z.to_nat stop) items.
Proof.
  intros H. unfold slice_to.
  destruct (Z.leb_spec 0 stop); [reflexivity | lia].
Qed.

(** A negative bound counts from the end. *)
Lemma slice_to_negative {A} (items : list A) (stop : Z) :
  (stop < 0)%Z ->
  slice_to items stop = take (length items - Z.to_nat (- stop)) items.
Proof.
  intros H. unfold slice_to.
  destruct (Z.leb_spec 0 stop); [lia|]. f_equal. lia.
Qed.

Lemma entries_item_chunks idx items :
  Spec.entries (item_chunks idx items)
  = imap (fun i item => (idx + i, item.(title), item.(link))) items.
Proof.
  revert idx. induction items as [|item rest IH]; intros idx; [reflexivity|].
  simpl item_chunks. unfold Spec.entries in *.
  change (omap ?f (Entry ?a ?b ?c :: ?l)) with ((a, b, c) :: omap f l).
  rewrite omap_app, IH. simpl imap. rewrite Nat.add_0_r. f_equal.
  - destruct (PyStr.truthy item.(summary)); simpl;
      apply imap_ext; intros i x _; simpl; f_equal; f_equal; lia.
Qed.

Lemma has_site_false st site_name :
  has_site st site_name = false <-> st.(site_configs) !! site_name = None.
Proof.
  unfold has_site. rewrite bool_decide_eq_false, <- eq_None_not_Some.
  reflexivity.
Qed.

Section Orchestration.
Context {L : Libraries} {O : Outside}.
Implicit Types (st : State) (config : SiteConfig).

Lemma fetch_site_items_unknown st site_name limit :
  st.(site_configs) !! site_name = None ->
  fetch_site_items st site_name limit
  = (Raise (ValueError (MsgSiteConfigNotFound site_name)),
     LOG DEBUG (PreparingFetch site_name) st).
Proof. intros H. unfold fetch_site_items. simpl. now rewrite H. Qed.

Lemma fetch_site_items_known st site_name limit config :
  st.(site_configs) !! site_name = Some config ->
  fetch_site_items st site_name limit
  = match fetch_and_parse config with
    | Ok items =>
        (Ok (slice_to items limit),
         LOG INFO (ParsedOk site_name (length items))
           (LOG DEBUG (PreparingFetch site_name) st))
    | Raise exc =>
        (Ok [],
         LOG ERROR (FetchFailed site_name exc)
           (LOG DEBUG (PreparingFetch site_name) st))
    end.
Proof. intros H. unfold fetch_site_items. simpl. now rewrite H. Qed.

(** Fetching touches neither the registry nor the files, and its result
    depends on the registry alone. *)
Lemma fetch_site_items_frame st site_name limit :
  (fetch_site_items st site_name limit).2.(site_configs) = st.(site_configs)
  /\ (fetch_site_items st site_name limit).2.(files) = st.(files).
Proof.
  unfold fetch_site_items. simpl.
  destruct (st.(site_configs) !! site_name) as [config|]; [|now split].
  destruct (fetch_and_parse config); now split.
Qed.

Lemma fetch_site_items_registry st1 st2 site_name limit :
  st1.(site_configs) = st2.(site_configs) ->
  (fetch_site_items st1 site_name limit).1
  = (fetch_site_items st2 site_name limit).1.
Proof.
  intros H. unfold fetch_site_items. simpl. rewrite H.
  destruct (st2.(site_configs) !! site_name) as [config|]; [|reflexivity].
  destruct (fetch_and_parse config); reflexivity.
Qed.

Lemma fetch_and_parse_ok config response items :
  session_get config.(url) timeout headers = Ok response ->
  raise_for_status response = Ok tt ->
  _parse_items response.(text) config = Ok items ->
  fetch_and_parse config = Ok items.
Proof.
  intros Hg Hs Hp. unfold fetch_and_parse. rewrite Hg. simpl.
  rewrite Hs. simpl. exact Hp.
Qed.

(** The three ways an exported file can fail to come about. *)
Lemma export_site_items_cases st site_name date hour :
  let st0 := LOG DEBUG (PreparingExport site_name) st in
  match fetch_site_items st0 site_name default_limit with
  | (Raise exc, st1) =>
      export_site_items st site_name date hour
      = if isinstance_ValueError exc
        then (Ok None, LOG ERROR (ConfigError exc) st1)
        else (Raise exc, st1)
  | (Ok [], st1) =>
      export_site_items st site_name date hour
      = (Ok None, LOG WARNING (NothingToExport site_name) st1)
  | (Ok (item :: rest), st1) =>
      let date' := from_option id now_date date in
      let hour' := from_option id now_hour hour in
      let file_path :=
        path_join (path_join (path_join "custom_sites" site_name) date')
          (hour' +:+ ".md") in
      export_site_items st site_name date hour
      = (Ok (Some file_path),
         LOG INFO (Exported site_name file_path)
           (mkState st1.(site_configs) st1.(log)
              (<[file_path := Heading site_name date' hour'
                              :: item_chunks 1 (item :: rest)]> st1.(files))))
  end.
Proof.
  unfold export_site_items. simpl.
  destruct (fetch_site_items _ site_name default_limit) as [[[|item items]|exc] st1];
    reflexivity.
Qed.

End Orchestration.

End OrchestrationFacts.

Module ClientFacts.

Import PyStrFacts Soup CustomSiteClient ExtractorFacts OrchestrationFacts.

Section Client.
Context {L : Libraries} {O : Outside}.
Implicit Types (st : State) (config : SiteConfig).

(** C6 (truncation): when the site is registered, the fetch succeeds and the
    extractor finds [items], a call with a limit [limit >= 0] returns the
    first [min (length items) limit] of them, a prefix of [items]; the export,
    which fetches with the default limit 30, writes a file whose numbered
    entries are the first [min (length items) 30] items in their order, 30
    entries when there are 50 items. *)
Theorem C6_truncation st site_name config response items limit date hour :
  st.(site_configs) !! site_name = Some config ->
  session_get config.(url) timeout headers = Ok response ->
  raise_for_status response = Ok tt ->
  _parse_items response.(text) config = Ok items ->
  (0 <= limit)%Z ->
  (fetch_site_items st site_name limit).1 = Ok (take (Z.to_nat limit) items)
  /\ length (take (Z.to_nat limit) items)
     = Nat.min (length items) (Z.to_nat limit)
  /\ take (Z.to_nat limit) items `prefix_of` items
  /\ default_limit = 30%Z
  /\ (items <> [] ->
      exists file_path st' content,
        export_site_items st site_name date hour = (Ok (Some file_path), st')
        /\ st'.(files) !! file_path = Some content
        /\ Spec.entries content
           = imap (fun i item => (1 + i, item.(title), item.(link)))
               (take 30 items)
        /\ length (Spec.entries content) = Nat.min (length items) 30
        /\ (length items = 50 -> length (Spec.entries content) = 30)).
Proof.
  intros Hcfg Hget Hstatus Hparse Hlimit.
  pose proof (fetch_and_parse_ok _ _ _ Hget Hstatus Hparse) as Hfp.
  split.
  { rewrite (fetch_site_items_known _ _ _ _ Hcfg), Hfp. simpl.
    now rewrite slice_to_nonneg. }
  split; [rewrite length_take; lia|].
  split; [apply prefix_take|].
  split; [reflexivity|].
  intros Hne.
  pose proof (export_site_items_cases st site_name date hour) as Hc.
  cbv zeta in Hc.
  rewrite (fetch_site_items_known _ _ _ config) in Hc by exact Hcfg.
  rewrite Hfp in Hc.
  change (slice_to items default_limit) with (take 30 items) in Hc.
  destruct (take 30 items) as [|item rest] eqn:Htake.
  { destruct items; [contradiction | discriminate]. }
  eexists _, _, _. split; [exact Hc|].
  split; [apply lookup_insert_eq|].
  assert (Hlen : length (item :: rest) = Nat.min (length items) 30).
  { rewrite <- Htake, length_take. lia. }
  change (Spec.entries (?h :: ?l)) with (Spec.entries l).
  rewrite entries_item_chunks, length_imap.
  repeat split; [exact Hlen|]. intros H50. rewrite Hlen, H50. reflexivity.
Qed.

(** C7 (fetch error routing): [fetch_site_items] raises exactly when the name
    is not in the registry, and what it raises then is the [ValueError] of the
    missing configuration; for a registered name a failure of the request, an
    HTTP error status or a failure of the parsing is caught, logged as an
    error, and the result is the empty list. *)
Theorem C7_fetch_error_routing st site_name limit :
  ((exists exc, (fetch_site_items st site_name limit).1 = Raise exc)
   <-> has_site st site_name = false)
  /\ (forall exc,
        (fetch_site_items st site_name limit).1 = Raise exc ->
        exc = ValueError (MsgSiteConfigNotFound site_name)
        /\ isinstance_ValueError exc = true)
  /\ (forall config,
        st.(site_configs) !! site_name = Some config ->
        (exists items, (fetch_site_items st site_name limit).1 = Ok items)
        /\ (forall exc,
              fetch_and_parse config = Raise exc ->
              fetch_site_items st site_name limit
              = (Ok [],
                 LOG ERROR (FetchFailed site_name exc)
                   (LOG DEBUG (PreparingFetch site_name) st)))
        /\ (forall exc,
              session_get config.(url) timeout headers = Raise exc ->
              fetch_and_parse config = Raise exc)
        /\ (forall response,
              session_get config.(url) timeout headers = Ok response ->
              (400 <= response.(status_code) < 600)%Z ->
              exists exc, fetch_and_parse config = Raise exc)
        /\ (forall response exc,
              session_get config.(url) timeout headers = Ok response ->
              raise_for_status response = Ok tt ->
              _parse_items response.(text) config = Raise exc ->
              fetch_and_parse config = Raise exc)).
Proof.
  split; [|split].
  - rewrite has_site_false. split.
    + intros [exc H].
      destruct (st.(site_configs) !! site_name) as [config|] eqn:Hc;
        [|reflexivity].
      rewrite (fetch_site_items_known _ _ _ _ Hc) in H.
      destruct (fetch_and_parse config); discriminate.
    + intros H. rewrite (fetch_site_items_unknown _ _ _ H). eauto.
  - intros exc H.
    destruct (st.(site_configs) !! site_name) as [config|] eqn:Hc.
    + rewrite (fetch_site_items_known _ _ _ _ Hc) in H.
      destruct (fetch_and_parse config); discriminate.
    + rewrite (fetch_site_items_unknown _ _ _ Hc) in H.
      injection H as <-. now split.
  - intros config Hc. rewrite (fetch_site_items_known _ _ _ _ Hc).
    split; [destruct (fetch_and_parse config); simpl; eauto|].
    split; [intros exc ->; reflexivity|].
    unfold fetch_and_parse. split; [|split].
    + intros exc ->. reflexivity.
    + intros response -> [Hlo Hhi]. simpl. unfold raise_for_status.
      apply Z.leb_le in Hlo. apply Z.ltb_lt in Hhi. rewrite Hlo, Hhi.
      simpl. eauto.
    + intros response exc -> Hs Hp. simpl. rewrite Hs. simpl. exact Hp.
Qed.

(** C8 (export fail-soft): [export_site_items] never raises; for a name that
    is not registered, and whenever the fetch yields no item (as when no node
    matches [item_selector]), it returns [None] and leaves the files as they
    were, logging an error in the first case and a warning in the second. *)
Theorem C8_export_fail_soft st site_name date hour :
  (exists r st', export_site_items st site_name date hour = (Ok r, st'))
  /\ (has_site st site_name = false ->
      exists st',
        export_site_items st site_name date hour = (Ok None, st')
        /\ st'.(files) = st.(files)
        /\ last st'.(log)
           = Some (ERROR,
                   ConfigError (ValueError (MsgSiteConfigNotFound site_name))))
  /\ ((fetch_site_items st site_name default_limit).1 = Ok [] ->
      exists st',
        export_site_items st site_name date hour = (Ok None, st')
        /\ st'.(files) = st.(files)
        /\ last st'.(log) = Some (WARNING, NothingToExport site_name))
  /\ (forall config response soup,
        st.(site_configs) !! site_name = Some config ->
        session_get config.(url) timeout headers = Ok response ->
        raise_for_status response = Ok tt ->
        BeautifulSoup response.(text) = Ok soup ->
        select config.(item_selector) ([], soup) = Ok [] ->
        _parse_items response.(text) config = Ok []
        /\ exists st',
             export_site_items st site_name date hour = (Ok None, st')
             /\ st'.(files) = st.(files)).
Proof.
  pose proof (export_site_items_cases st site_name date hour) as Hc.
  cbv zeta in Hc.
  set (st0 := LOG DEBUG (PreparingExport site_name) st) in *.
  pose proof (fetch_site_items_frame st0 site_name default_limit) as [_ Hfiles].
  pose proof (fetch_site_items_registry st0 st site_name default_limit eq_refl)
    as Hreg.
  assert (Hempty : (fetch_site_items st site_name default_limit).1 = Ok [] ->
            exists st',
              export_site_items st site_name date hour = (Ok None, st')
              /\ st'.(files) = st.(files)
              /\ last st'.(log) = Some (WARNING, NothingToExport site_name)).
  { intros H. rewrite <- Hreg in H.
    destruct (fetch_site_items st0 site_name default_limit) as [r st1].
    simpl in H, Hfiles. subst r. eexists. split; [exact Hc|].
    split; [exact Hfiles|]. simpl. apply last_snoc. }
  split; [|split; [|split]].
  - destruct (st.(site_configs) !! site_name) as [config|] eqn:Hs.
    + rewrite (fetch_site_items_known st0 _ _ config Hs) in Hc.
      destruct (fetch_and_parse config) as [items|exc]; [|eauto].
      destruct (slice_to items default_limit); eauto.
    + rewrite (fetch_site_items_unknown st0 _ _ Hs) in Hc. simpl in Hc. eauto.
  - intros H. apply has_site_false in H.
    rewrite (fetch_site_items_unknown st0 _ _ H) in Hc. simpl in Hc.
    eexists. split; [exact Hc|]. split; [reflexivity|]. simpl.
    apply last_snoc.
  - exact Hempty.
  - intros config response soup Hs Hget Hstatus Hsoup Hsel.
    assert (Hp : _parse_items response.(text) config = Ok []).
    { unfold _parse_items. rewrite Hsoup. simpl. rewrite Hsel. reflexivity. }
    split; [exact Hp|].
    destruct Hempty as (st' & He & Hf & _).
    + rewrite (fetch_site_items_known _ _ _ _ Hs).
      now rewrite (fetch_and_parse_ok _ _ _ Hget Hstatus Hp).
    + eauto.
Qed.

End Client.

Section Witnesses.
Local Existing Instance Fixture.libraries.
Local Existing Instance Fixture.outside.

Lemma C6_truncation_witness :
  Fixture.state.(site_configs) !! "page" = Some Fixture.page_config
  /\ (0 <= 1)%Z
  /\ (fetch_site_items Fixture.state "page" 1).1
     = Ok (take (Z.to_nat 1) Fixture.page_items)
  /\ length (take (Z.to_nat 1) Fixture.page_items) = 1.
Proof.
  split; [vm_compute; reflexivity|]. split; [lia|].
  destruct (C6_truncation Fixture.state "page" Fixture.page_config
              (mkResponse 200 Fixture.page_html) Fixture.page_items 1
              None None) as (H1 & H2 & _);
    [vm_compute; reflexivity | reflexivity | reflexivity | reflexivity | lia |].
  split; [exact H1 | exact H2].
Defined.

Lemma C7_fetch_error_routing_witness :
  has_site Fixture.state "nope" = false
  /\ (fetch_site_items Fixture.state "openai_blog" 30).1 = Ok [].
Proof.
  split.
  - apply (proj1 (C7_fetch_error_routing Fixture.state "nope" 30)).
    eexists. vm_compute. reflexivity.
  - vm_compute. reflexivity.
Defined.

Lemma C8_export_fail_soft_witness :
  has_site Fixture.state "nope" = false
  /\ exists st',
       export_site_items Fixture.state "nope" None None = (Ok None, st')
       /\ st'.(files) = Fixture.state.(files)
       /\ last st'.(log)
          = Some (ERROR, ConfigError (ValueError (MsgSiteConfigNotFound "nope"))).
Proof.
  assert (H : has_site Fixture.state "nope" = false)
    by (vm_compute; reflexivity).
  split; [exact H|].
  exact (proj1 (proj2 (C8_export_fail_soft Fixture.state "nope" None None)) H).
Defined.

End Witnesses.

End ClientFacts.

(** ** The name of an ad-hoc site *)

Module NameFacts.

Import PyStr PyStrFacts CustomSiteClient OrchestrationFacts GradioServer.

Lemma lower_char_not_upper c : isupper (lower_char c) = false.
Proof. destruct c as [[] [] [] [] [] [] [] []]; reflexivity. Qed.



Lemma forallb_replace (q : ascii -> bool) old new s :
  forallb q new = true ->
  (forall c, c <> old -> In c (list_ascii_of_string s) -> q c = true) ->
  forallb q (replace old new s) = true.
Proof.
  intros Hnew. induction s as [|c s IH]; simpl; [reflexivity|].
  intros Hs. destruct (Ascii.eqb_spec c old) as [->|Hne].
  - rewrite forallb_app, Hnew. apply IH. intros d Hd Hin. apply Hs; auto.
  - simpl. rewrite (Hs c Hne) by (now left). apply IH.
    intros d Hd Hin. apply Hs; auto.
Qed.

Lemma forallb_In (q : ascii -> bool) s :
  forallb q s = true <-> forall c, In c (list_ascii_of_string s) -> q c = true.
Proof.
  induction s as [|c s IH]; simpl.
  - split; [intros _ c [] | reflexivity].
  - rewrite andb_true_iff, IH. split.
    + intros [Hc Hs] d [<-|Hd]; auto.
    + intros H. split; [apply H; now left | intros d Hd; apply H; now right].
Qed.

Lemma lower_no_upper s : forallb (fun c => negb (isupper c)) (lower s) = true.
Proof.
  induction s as [|c s IH]; simpl; [reflexivity|].
  now rewrite lower_char_not_upper, IH.
Qed.

(** Replacing the spaces leaves no space, and brings in no capital letter. *)
Lemma replace_space_no_space s :
  forallb (fun c => negb (Ascii.eqb " " c)) (replace " " "_" s) = true.
Proof.
  apply forallb_replace; [reflexivity|].
  intros c Hc _. destruct (Ascii.eqb_spec " " c); [congruence | reflexivity].
Qed.

Lemma replace_space_no_upper s :
  forallb (fun c => negb (isupper c)) s = true ->
  forallb (fun c => negb (isupper c)) (replace " " "_" s) = true.
Proof.
  intros H. apply forallb_replace; [reflexivity|].
  intros c _. revert c. now apply forallb_In.
Qed.

Lemma replace_nonempty old new s :
  new <> EmptyString -> s <> EmptyString ->
  replace old new s <> EmptyString.
Proof.
  intros Hnew Hs. destruct s as [|c s]; [contradiction|]. simpl.
  destruct (Ascii.eqb c old); [|discriminate].
  intros H. apply app_eq_empty in H as [? _]. contradiction.
Qed.



Section Names.
Context {L : Libraries}.

Lemma _normalize_site_name_given raw_name fallback_url :
  Spec.blank raw_name = false ->
  _normalize_site_name raw_name fallback_url
  = Ok (replace " " "_" (lower (strip (or_empty raw_name)))).
Proof.
  unfold Spec.blank, _normalize_site_name. intros H.
  apply negb_false_iff in H.
  destruct (strip (or_empty raw_name)) as [|c s]; [discriminate|].
  reflexivity.
Qed.

Lemma lower_empty s : lower s = EmptyString <-> s = EmptyString.
Proof. destruct s; simpl; split; congruence. Qed.



Lemma export_site_items_registry {O : Outside} st site_name date hour :
  (export_site_items st site_name date hour).2.(site_configs)
  = st.(site_configs).
Proof.
  pose proof (export_site_items_cases st site_name date hour) as Hc.
  cbv zeta in Hc.
  pose proof (fetch_site_items_frame
                (LOG DEBUG (PreparingExport site_name) st) site_name
                default_limit) as [Hreg _].
  destruct (fetch_site_items _ site_name default_limit) as [[[|item rest]|exc] st1];
    rewrite Hc; simpl in *; try assumption.
  destruct (isinstance_ValueError exc); simpl; assumption.
Qed.

Lemma export_and_report_registry {O : Outside} report_generator st chosen_site :
  (export_and_report report_generator st chosen_site).2.(site_configs)
  = st.(site_configs).
Proof.
  unfold export_and_report.
  pose proof (export_site_items_registry st chosen_site None None) as H.
  destruct (export_site_items st chosen_site None None) as [[[file_path|]|exc] st1];
    simpl in *; try assumption.
  destruct (negb (truthy file_path)); [assumption|].
  destruct (report_generator file_path chosen_site) as [[report path]|exc];
    assumption.
Qed.


(** The handler fills an empty base with the origin of the address. *)
Lemma adhoc_config_origin chosen_site parsed_url custom_site_url
    custom_item_selector custom_title_selector custom_link_selector
    custom_summary_selector custom_base_url :
  strip (or_empty custom_base_url) = EmptyString ->
  (adhoc_config chosen_site parsed_url custom_site_url custom_item_selector
     custom_title_selector custom_link_selector custom_summary_selector
     custom_base_url).(base_url)
  = Some (parsed_url.(UrlParse.scheme) +:+ "://"
          +:+ parsed_url.(UrlParse.netloc)).
Proof. intros H. unfold adhoc_config. simpl. now rewrite H. Qed.


End Names.

Section Witnesses.
Local Existing Instance Fixture.libraries.
Local Existing Instance Fixture.outside.



End Witnesses.

End NameFacts.

(** ** The registry *)

Module RegistryFacts.

Import CustomSiteClient OrchestrationFacts.

(** Registration under a name: the configuration is found under its name
    afterwards, every other name is as it was, no file is touched, one INFO
    record joins the log, and a second registration under the same name
    leaves the registry as if the first had not happened. *)
Theorem register_site_lookup (st : State) (config : SiteConfig) :
  (register_site st config).(site_configs) !! config.(name) = Some config
  /\ has_site (register_site st config) config.(name) = true
  /\ (forall other,
        other <> config.(name) ->
        (register_site st config).(site_configs) !! other
        = st.(site_configs) !! other
        /\ has_site (register_site st config) other = has_site st other)
  /\ (register_site st config).(files) = st.(files)
  /\ (register_site st config).(log)
     = st.(log) ++ [(INFO, SiteRegistered config.(name))]
  /\ (forall previous,
        previous.(name) = config.(name) ->
        (register_site (register_site st previous) config).(site_configs)
        = (register_site st config).(site_configs)).
Proof.
  assert (Hl : (register_site st config).(site_configs) !! config.(name)
               = Some config) by (simpl; apply lookup_insert_eq).
  split; [exact Hl|]. split.
  { unfold has_site. rewrite Hl. apply bool_decide_eq_true. eauto. }
  split.
  { intros other Hne.
    assert (Ho : (register_site st config).(site_configs) !! other
                 = st.(site_configs) !! other)
      by (simpl; now apply lookup_insert_ne).
    split; [exact Ho|]. unfold has_site. now rewrite Ho. }
  split; [reflexivity|]. split; [reflexivity|].
  intros previous Hn. simpl. rewrite Hn. apply insert_insert_eq.
Qed.

(** The names [list_sites] returns, as a set, are the names [has_site]
    accepts; a new client lists the two built-in sites and nothing else, and
    a registration adds its name and removes none. *)
Theorem list_sites_has_site (st : State) (site_name : string) :
  (site_name ∈ list_sites st <-> has_site st site_name = true)
  /\ (forall config,
        list_sites (register_site st config)
        = {[config.(name)]} ∪ list_sites st)
  /\ (forall log files,
        list_sites (__init__ log files)
        = {["openai_blog"; "openai_research"]}
        /\ (__init__ log files).(CustomSiteClient.files) = files).
Proof.
  split; [|split].
  - unfold list_sites, has_site.
    rewrite elem_of_dom, bool_decide_eq_true. reflexivity.
  - intros config. unfold list_sites. simpl. apply dom_insert_L.
  - intros lg fs. split; [|reflexivity].
    unfold list_sites, __init__, _register_builtin_sites. simpl.
    rewrite !dom_insert_L, dom_empty_L. set_solver.
Qed.

End RegistryFacts.

(** ** Which nodes become items, and what a failing node costs *)

Module EmissionFacts.

Import PyStr PyStrFacts Soup SoupFacts CustomSiteClient ExtractorFacts
  OrchestrationFacts.

Section Emission.
Context {L : Libraries}.
Implicit Types (config : SiteConfig) (node : Loc) (item : Item).

Lemma parse_loop_all_ok config item_nodes parsed_items items :
  parse_loop config item_nodes parsed_items = Ok items ->
  Forall (fun node => exists r, parse_item_node config node = Ok r) item_nodes.
Proof.
  revert parsed_items.
  induction item_nodes as [|node rest IH]; intros acc; simpl; [constructor|].
  intros H. apply bind_ok in H as (r & Hr & H).
  constructor; [eauto | eapply IH, H].
Qed.

Lemma parse_loop_raise config item_nodes parsed_items node exc :
  node ∈ item_nodes ->
  parse_item_node config node = Raise exc ->
  exists exc', parse_loop config item_nodes parsed_items = Raise exc'.
Proof.
  intros Hin. revert parsed_items.
  induction Hin as [node rest | node other rest Hin IH];
    intros acc Hraise; simpl.
  - rewrite Hraise. simpl. eauto.
  - destruct (parse_item_node config other) as [r|e]; simpl; [|eauto].
    now apply IH.
Qed.

(** Once the node is parsed without an exception, only the title decides. *)
Lemma parsed_some_iff_titled config node r :
  parse_item_node config node = Ok r ->
  (is_Some r <-> Shape.titled config node = true).
Proof.
  unfold parse_item_node, Shape.titled.
  destruct (select_one config.(title_selector) node) as [[t|]|e]; simpl.
  - intros H.
    apply bind_ok in H as (l & _ & H).
    apply bind_ok in H as (f & _ & H).
    apply bind_ok in H as (s & _ & H).
    destruct (truthy (get_text true t.2)); injection H as <-.
    + split; eauto.
    + split; [intros [? ?]|]; discriminate.
  - intros [= <-]. split; [intros [? ?]|]; discriminate.
  - discriminate.
Qed.

Lemma emitted_count config item_nodes :
  Forall (fun node => exists r, parse_item_node config node = Ok r) item_nodes ->
  length (omap (Spec.emitted config) item_nodes)
  = length (List.filter (Shape.titled config) item_nodes).
Proof.
  induction 1 as [|node rest [r Hr] _ IH]; [reflexivity|].
  pose proof (parsed_some_iff_titled _ _ _ Hr) as Hiff.
  change (omap ?f (node :: rest))
    with (match f node with Some y => y :: omap f rest | None => omap f rest end).
  cbn [List.filter]. unfold Spec.emitted at 1. rewrite Hr.
  destruct r as [item|].
  - rewrite (proj1 Hiff) by eauto. cbn [length]. now rewrite IH.
  - destruct (Shape.titled config node); [|exact IH].
    destruct (proj2 Hiff eq_refl). discriminate.
Qed.

(** When the extraction returns, it returns one item for every matched item
    node that has a title node with text: as many items as there are such
    nodes, each with that text as its title.  A node is never dropped for
    want of a link or of a summary. *)
Theorem titled_nodes_are_emitted html config items :
  _parse_items html config = Ok items ->
  exists soup item_nodes,
    BeautifulSoup html = Ok soup
    /\ select config.(item_selector) ([], soup) = Ok item_nodes
    /\ length items = length (List.filter (Shape.titled config) item_nodes)
    /\ forall node,
         node ∈ item_nodes -> Shape.titled config node = true ->
         exists item title_node,
           parse_item_node config node = Ok (Some item)
           /\ item ∈ items
           /\ select_one config.(title_selector) node = Ok (Some title_node)
           /\ item.(title) = get_text true title_node.2.
Proof.
  unfold _parse_items. intros H.
  apply bind_ok in H as (soup & Hsoup & H).
  apply bind_ok in H as (nodes & Hsel & H).
  pose proof (parse_loop_all_ok _ _ _ _ H) as Hall.
  apply parse_loop_ok in H. simpl in H. subst items.
  exists soup, nodes. repeat split; try assumption.
  - now apply emitted_count.
  - intros node Hin Ht.
    rewrite Forall_forall in Hall. destruct (Hall node Hin) as [r Hr].
    destruct (proj2 (parsed_some_iff_titled _ _ _ Hr) Ht) as [item ->].
    pose proof (parse_item_node_some _ _ _ Hr)
      as (t & _ & Hsel' & _ & _ & Htitle & _).
    exists item, t. repeat split; try assumption.
    apply list_elem_of_omap. exists node. split; [assumption|].
    now apply emitted_some.
Qed.

(** One item node that raises (a malformed selector, a link that cannot be
    joined) makes the whole extraction raise, and the fetch of a site whose
    page has such a node return no item at all, the items of the other nodes
    included. *)
Theorem failing_node_discards_all {O : Outside} html config soup item_nodes
    node exc :
  BeautifulSoup html = Ok soup ->
  select config.(item_selector) ([], soup) = Ok item_nodes ->
  node ∈ item_nodes ->
  parse_item_node config node = Raise exc ->
  (exists exc', _parse_items html config = Raise exc')
  /\ forall st site_name limit response,
       st.(site_configs) !! site_name = Some config ->
       session_get config.(url) timeout headers = Ok response ->
       response.(text) = html ->
       (fetch_site_items st site_name limit).1 = Ok []
       /\ exists exc',
            last (fetch_site_items st site_name limit).2.(log)
            = Some (ERROR, FetchFailed site_name exc').
Proof.
  intros Hsoup Hsel Hin Hraise.
  assert (Hp : exists exc', _parse_items html config = Raise exc').
  { unfold _parse_items. rewrite Hsoup. simpl. rewrite Hsel. simpl.
    now apply parse_loop_raise with node exc. }
  split; [exact Hp|].
  intros st site_name limit response Hcfg Hget Htext.
  rewrite (fetch_site_items_known _ _ _ _ Hcfg).
  assert (Hfp : exists exc', fetch_and_parse config = Raise exc').
  { unfold fetch_and_parse. rewrite Hget. simpl.
    destruct (raise_for_status response); simpl; [|eauto].
    now rewrite Htext. }
  destruct Hfp as [exc' ->]. simpl. split; [reflexivity|].
  exists exc'. apply last_snoc.
Qed.

End Emission.

Lemma titled_nodes_are_emitted_witness :
  _parse_items (L := Fixture.libraries) Fixture.page_html Fixture.page_config
  = Ok Fixture.page_items
  /\ exists soup item_nodes,
       BeautifulSoup (Libraries := Fixture.libraries) Fixture.page_html
       = Ok soup
       /\ select (L := Fixture.libraries) "li" ([], soup) = Ok item_nodes
       /\ length item_nodes = 3
       /\ length Fixture.page_items
          = length (List.filter
                      (Shape.titled (L := Fixture.libraries) Fixture.page_config)
                      item_nodes).
Proof.
  split; [reflexivity|].
  destruct (titled_nodes_are_emitted (L := Fixture.libraries)
              Fixture.page_html Fixture.page_config Fixture.page_items
              eq_refl) as (soup & nodes & Hsoup & Hsel & Hlen & _).
  exists soup, nodes. repeat split; try assumption.
  injection Hsoup as <-. injection Hsel as <-. reflexivity.
Defined.

Lemma failing_node_discards_all_witness :
  parse_item_node (L := Cases.libraries) Cases.broken_config Cases.bad_node
  = Raise (ValueError (MsgText "Invalid IPv6 URL"))
  /\ (fetch_site_items (L := Cases.libraries) (O := Cases.outside)
        Cases.state "broken" 30%Z).1 = Ok [].
Proof.
  split; [reflexivity|].
  refine (proj1 (proj2 (failing_node_discards_all (L := Cases.libraries)
            (O := Cases.outside) Cases.broken_html Cases.broken_config
            Cases.broken_soup Cases.broken_nodes Cases.bad_node
            (ValueError (MsgText "Invalid IPv6 URL")) eq_refl eq_refl _ eq_refl)
          Cases.state "broken" 30%Z (mkResponse 200 Cases.broken_html)
          _ eq_refl eq_refl)).
  - apply list_elem_of_lookup. exists 1. reflexivity.
  - vm_compute. reflexivity.
Defined.

End EmissionFacts.

(** ** What fetching and exporting leave alone *)

Module FrameFacts.

Import CustomSiteClient ExtractorFacts OrchestrationFacts.

Section Frames.
Context {L : Libraries} {O : Outside}.
Implicit Types (st : State) (config : SiteConfig).

Lemma fetch_site_items_log st site_name limit :
  st.(log) `prefix_of` (fetch_site_items st site_name limit).2.(log).
Proof.
  unfold fetch_site_items. simpl.
  destruct (st.(site_configs) !! site_name) as [config|]; simpl.
  - destruct (fetch_and_parse config); simpl;
      rewrite <- List.app_assoc; now apply prefix_app_r.
  - now apply prefix_app_r.
Qed.

(** A limit below zero does not truncate to a count: the slice drops that
    many items from the end; the limit zero returns nothing.  The record of
    success in the log carries the number of items extracted, whatever the
    limit keeps of them. *)
Theorem fetch_negative_limit st site_name config items limit :
  st.(site_configs) !! site_name = Some config ->
  fetch_and_parse config = Ok items ->
  (limit < 0)%Z ->
  (fetch_site_items st site_name limit).1
  = Ok (take (length items - Z.to_nat (- limit)) items)
  /\ (fetch_site_items st site_name 0).1 = Ok []
  /\ (fetch_site_items st site_name limit).2.(log)
     = st.(log) ++ [(DEBUG, PreparingFetch site_name);
                    (INFO, ParsedOk site_name (length items))].
Proof.
  intros Hcfg Hfp Hlimit.
  rewrite !(fetch_site_items_known _ _ _ _ Hcfg), Hfp. simpl.
  split; [now rewrite slice_to_negative|]. split.
  - unfold slice_to. simpl. now rewrite take_0.
  - now rewrite <- List.app_assoc.
Qed.

(** Fetching changes neither the registry nor the files and only adds to the
    log; exporting changes neither the registry nor what the log held, and
    of the files at most the one whose path it returns: without a path no
    file has changed at all. *)
Theorem fetch_and_export_frame st site_name limit date hour :
  (fetch_site_items st site_name limit).2.(site_configs) = st.(site_configs)
  /\ (fetch_site_items st site_name limit).2.(files) = st.(files)
  /\ st.(log) `prefix_of` (fetch_site_items st site_name limit).2.(log)
  /\ (export_site_items st site_name date hour).2.(site_configs)
     = st.(site_configs)
  /\ st.(log) `prefix_of` (export_site_items st site_name date hour).2.(log)
  /\ match (export_site_items st site_name date hour).1 with
     | Ok (Some file_path) =>
         is_Some ((export_site_items st site_name date hour).2.(files)
                  !! file_path)
         /\ forall other,
              other <> file_path ->
              (export_site_items st site_name date hour).2.(files) !! other
              = st.(files) !! other
     | _ => (export_site_items st site_name date hour).2.(files) = st.(files)
     end.
Proof.
  destruct (fetch_site_items_frame st site_name limit) as [Hr Hf].
  split; [exact Hr|]. split; [exact Hf|].
  split; [apply fetch_site_items_log|].
  pose proof (export_site_items_cases st site_name date hour) as Hc.
  cbv zeta in Hc.
  set (st0 := LOG DEBUG (PreparingExport site_name) st) in *.
  destruct (fetch_site_items_frame st0 site_name default_limit) as [Hr0 Hf0].
  pose proof (fetch_site_items_log st0 site_name default_limit) as Hl0.
  assert (Hl : st.(log) `prefix_of`
               (fetch_site_items st0 site_name default_limit).2.(log)).
  { etrans; [|exact Hl0]. now apply prefix_app_r. }
  destruct (fetch_site_items st0 site_name default_limit)
    as [[[|item rest]|exc] st1]; simpl in *.
  - rewrite Hc. simpl. repeat split; try assumption. now apply prefix_app_r.
  - rewrite Hc. simpl. repeat split; try assumption.
    + now apply prefix_app_r.
    + rewrite lookup_insert_eq. eauto.
    + intros other Hne. rewrite lookup_insert_ne by congruence.
      now rewrite Hf0.
  - rewrite Hc. destruct (isinstance_ValueError exc); simpl;
      repeat split; try assumption. now apply prefix_app_r.
Qed.

End Frames.

Lemma fetch_negative_limit_witness :
  (-1 < 0)%Z
  /\ (fetch_site_items (L := Fixture.libraries) (O := Fixture.outside)
        Fixture.state "page" (-1)).1
     = Ok (take (length Fixture.page_items - Z.to_nat (- -1))
             Fixture.page_items)
  /\ take (length Fixture.page_items - Z.to_nat (- -1)) Fixture.page_items
     = [mkItem "Hello" "https://example.com/p1" EmptyString].
Proof.
  split; [lia|]. split; [|reflexivity].
  apply (fetch_negative_limit (L := Fixture.libraries) (O := Fixture.outside)
           Fixture.state "page" Fixture.page_config Fixture.page_items (-1));
    [vm_compute; reflexivity | reflexivity | lia].
Defined.

End FrameFacts.

(** ** The exported file *)

Module ExportFacts.

Import PyStrFacts CustomSiteClient ExtractorFacts OrchestrationFacts.

Lemma drop_last_cons c z :
  z <> EmptyString ->
  PyStr.drop (String.length (String c z) - 1) (String c z)
  = PyStr.drop (String.length z - 1) z.
Proof.
  destruct z as [|d z]; [contradiction|]. intros _. simpl.
  now rewrite Nat.sub_0_r.
Qed.

Lemma ends_with_slash_app x y :
  y <> EmptyString ->
  Shape.ends_with_slash (x +:+ y) = Shape.ends_with_slash y.
Proof.
  intros Hy. unfold Shape.ends_with_slash. f_equal.
  induction x as [|c x IH]; [reflexivity|].
  change (String c x +:+ y) with (String c (x +:+ y)).
  rewrite drop_last_cons; [exact IH|].
  intros H. apply app_eq_empty in H as [_ ?]. contradiction.
Qed.

Lemma path_join_relative a b :
  a <> EmptyString -> Shape.ends_with_slash a = false ->
  PyStr.startswith "/" b = false ->
  path_join a b = a +:+ "/" +:+ b.
Proof.
  intros Ha He Hb. unfold path_join. rewrite Hb.
  apply truthy_true in Ha. rewrite Ha. simpl.
  unfold Shape.ends_with_slash in He. now rewrite He.
Qed.

Lemma path_join_extends a b :
  PyStr.startswith "/" b = false -> exists t, path_join a b = a +:+ t.
Proof.
  intros Hb. unfold path_join. rewrite Hb. destruct (_ || _); eauto.
Qed.

Lemma path_join_absolute a b :
  PyStr.startswith "/" b = true -> path_join a b = b.
Proof. intros Hb. unfold path_join. now rewrite Hb. Qed.

Lemma relative_dir_spec s :
  Shape.relative_dir s = true ->
  s <> EmptyString /\ PyStr.startswith "/" s = false
  /\ Shape.ends_with_slash s = false.
Proof.
  unfold Shape.relative_dir. rewrite !andb_true_iff, !negb_true_iff.
  intros [[Ht Hs] He]. apply truthy_true in Ht. now repeat split.
Qed.

Lemma prefix_empty s : String.prefix EmptyString s = true.
Proof. now destruct s. Qed.

Lemma startswith_cons p c s :
  PyStr.startswith (String p EmptyString) (String c s)
  = if ascii_dec p c then true else false.
Proof.
  unfold PyStr.startswith. cbn [String.prefix].
  destruct (ascii_dec p c); [apply prefix_empty | reflexivity].
Qed.

Lemma startswith_slash_app s t :
  PyStr.startswith "/" s = false -> PyStr.startswith "/" t = false ->
  PyStr.startswith "/" (s +:+ t) = false.
Proof.
  destruct s as [|c s]; [intros _ H; exact H|]. intros H _.
  change (String c s +:+ t) with (String c (s +:+ t)).
  now rewrite startswith_cons in *.
Qed.

Lemma startswith_self_app s t : PyStr.startswith s (s +:+ t) = true.
Proof.
  unfold PyStr.startswith. induction s as [|c s IH]; simpl.
  - apply prefix_empty.
  - destruct (ascii_dec c c); [exact IH | contradiction].
Qed.

Section Exporting.
Context {L : Libraries}.
Implicit Types (st : State) (config : SiteConfig).

(** What a successful export has done. *)
Lemma export_site_items_written {O : Outside} st site_name date hour
    file_path st' :
  export_site_items st site_name date hour = (Ok (Some file_path), st') ->
  let date' := from_option id now_date date in
  let hour' := from_option id now_hour hour in
  file_path
  = path_join (path_join (path_join "custom_sites" site_name) date')
      (hour' +:+ ".md")
  /\ exists items,
       items <> []
       /\ (fetch_site_items st site_name default_limit).1 = Ok items
       /\ st'.(files)
          = <[file_path := Heading site_name date' hour'
                           :: item_chunks 1 items]> st.(files)
       /\ st'.(site_configs) = st.(site_configs).
Proof.
  intros H.
  pose proof (export_site_items_cases st site_name date hour) as Hc.
  cbv zeta in Hc.
  set (st0 := LOG DEBUG (PreparingExport site_name) st) in *.
  destruct (fetch_site_items_frame st0 site_name default_limit) as [Hr Hf].
  pose proof (fetch_site_items_registry st0 st site_name default_limit eq_refl)
    as Hreg.
  destruct (fetch_site_items st0 site_name default_limit)
    as [[[|item rest]|exc] st1]; simpl in *.
  - rewrite Hc in H. discriminate.
  - rewrite Hc in H. injection H as <- <-. split; [reflexivity|].
    exists (item :: rest). simpl. rewrite Hf, Hr, <- Hreg.
    now repeat split.
  - rewrite Hc in H. destruct (isinstance_ValueError exc); discriminate.
Qed.

(** The exported file lies at [custom_sites/<site>/<date>/<hour>.md] when the
    site name and the date are not empty and have no slash at either end and
    the hour has none in front; a date or an hour that is not given is the
    clock's. *)
Theorem export_path_shape {O : Outside} st site_name date hour file_path st' :
  export_site_items st site_name date hour = (Ok (Some file_path), st') ->
  Shape.relative_dir site_name = true ->
  Shape.relative_dir (from_option id now_date date) = true ->
  PyStr.startswith "/" (from_option id now_hour hour) = false ->
  file_path
  = "custom_sites/" +:+ site_name +:+ "/" +:+ from_option id now_date date
    +:+ "/" +:+ from_option id now_hour hour +:+ ".md".
Proof.
  intros H Hsite Hdate Hhour.
  apply export_site_items_written in H as [-> _].
  apply relative_dir_spec in Hsite as (Hs1 & Hs2 & Hs3).
  apply relative_dir_spec in Hdate as (Hd1 & Hd2 & Hd3).
  rewrite (path_join_relative "custom_sites" site_name)
    by (try assumption; try discriminate; reflexivity).
  change ("custom_sites" +:+ "/" +:+ site_name)
    with ("custom_sites/" +:+ site_name).
  rewrite (path_join_relative _ (from_option id now_date date));
    [| discriminate | now rewrite (ends_with_slash_app _ _ Hs1) | assumption].
  rewrite path_join_relative.
  - now rewrite !app_assoc.
  - discriminate.
  - rewrite app_assoc, (ends_with_slash_app "custom_sites/").
    + now rewrite (ends_with_slash_app site_name), (ends_with_slash_app "/").
    + intros E. apply app_eq_empty in E as [? _]. contradiction.
  - now apply startswith_slash_app.
Qed.

(** A site name that starts with a slash takes the exported file out of
    [custom_sites]: the path starts with the site name itself. *)
Theorem export_rooted_site_name {O : Outside} st site_name date hour file_path
    st' :
  export_site_items st site_name date hour = (Ok (Some file_path), st') ->
  PyStr.startswith "/" site_name = true ->
  PyStr.startswith "/" (from_option id now_date date) = false ->
  PyStr.startswith "/" (from_option id now_hour hour) = false ->
  PyStr.startswith site_name file_path = true
  /\ PyStr.startswith "custom_sites" file_path = false.
Proof.
  intros H Hsite Hdate Hhour.
  apply export_site_items_written in H as [-> _].
  rewrite (path_join_absolute _ site_name Hsite).
  destruct (path_join_extends site_name _ Hdate) as [t1 ->].
  destruct (path_join_extends (site_name +:+ t1)
              (from_option id now_hour hour +:+ ".md")) as [t2 ->];
    [now apply startswith_slash_app|].
  rewrite app_assoc. split; [apply startswith_self_app|].
  destruct site_name as [|c s]; [discriminate|].
  rewrite startswith_cons in Hsite.
  destruct (ascii_dec "/" c) as [<-|]; [reflexivity | discriminate].
Qed.

Lemma item_chunks_flat idx items :
  item_chunks idx items
  = concat (imap (fun i item => Shape.rendered (idx + i) item) items).
Proof.
  revert idx. induction items as [|item rest IH]; intros idx; [reflexivity|].
  simpl item_chunks. simpl imap. simpl concat. rewrite Nat.add_0_r.
  unfold Shape.rendered at 1. simpl. f_equal. f_equal.
  rewrite IH. f_equal. apply imap_ext. intros i x _.
  unfold Shape.rendered, compose. now rewrite Nat.add_succ_r.
Qed.

Lemma summary_lines_of_items idx items :
  length (List.filter Shape.is_summary_line (item_chunks idx items))
  = length (List.filter (fun item => PyStr.truthy item.(summary)) items)
  /\ forall s, SummaryLine s ∈ item_chunks idx items ->
       s <> EmptyString /\ exists item, item ∈ items /\ item.(summary) = s.
Proof.
  revert idx. induction items as [|item rest IH]; intros idx.
  - split; [reflexivity|]. intros s Hs. inversion Hs.
  - destruct (IH (S idx)) as [IHn IHs]. simpl.
    destruct (PyStr.truthy item.(summary)) eqn:Ht; simpl; split.
    + now rewrite IHn.
    + intros s Hs. apply elem_of_cons in Hs as [?|Hs]; [discriminate|].
      apply elem_of_cons in Hs as [[= ->]|Hs].
      * split; [now apply truthy_true|]. exists item. split; [left|reflexivity].
      * destruct (IHs s Hs) as (Hne & it & Hin & Heq).
        split; [assumption|]. exists it. split; [now right | assumption].
    + exact IHn.
    + intros s Hs. apply elem_of_cons in Hs as [?|Hs]; [discriminate|].
      destruct (IHs s Hs) as (Hne & it & Hin & Heq).
      split; [assumption|]. exists it. split; [now right | assumption].
Qed.

Lemma fetch_site_items_bound {O : Outside} st site_name limit items :
  (fetch_site_items st site_name limit).1 = Ok items ->
  (0 <= limit)%Z -> length items <= Z.to_nat limit.
Proof.
  intros H Hl. unfold fetch_site_items in H. simpl in H.
  destruct (st.(site_configs) !! site_name) as [config|]; [|discriminate].
  destruct (fetch_and_parse config) as [all|exc]; simpl in H;
    injection H as <-; [|simpl; lia].
  rewrite slice_to_nonneg, length_take by assumption. lia.
Qed.

(** The exported file starts with the heading of the site, the date and the
    hour, followed for each fetched item, in order and numbered from 1, by
    its entry and, when its summary is not empty, by the line of that
    summary: at most 30 entries, as many summary lines as there are items
    with a summary, and never an empty one. *)
Theorem export_content_shape {O : Outside} st site_name date hour file_path
    st' :
  export_site_items st site_name date hour = (Ok (Some file_path), st') ->
  exists items body,
    (fetch_site_items st site_name default_limit).1 = Ok items
    /\ items <> [] /\ length items <= 30
    /\ st'.(files) !! file_path
       = Some (Heading site_name (from_option id now_date date)
                 (from_option id now_hour hour) :: body)
    /\ body = concat (imap (fun i item => Shape.rendered (1 + i) item) items)
    /\ length (List.filter Shape.is_summary_line body)
       = length (List.filter (fun item => PyStr.truthy item.(summary)) items)
    /\ forall s, SummaryLine s ∈ body ->
         s <> EmptyString /\ exists item, item ∈ items /\ item.(summary) = s.
Proof.
  intros H.
  apply export_site_items_written in H
    as (_ & items & Hne & Hfetch & Hfiles & _).
  exists items, (item_chunks 1 items).
  destruct (summary_lines_of_items 1 items) as [Hn Hs].
  repeat split; try assumption.
  - exact (fetch_site_items_bound _ _ _ _ Hfetch ltac:(unfold default_limit; lia)).
  - rewrite Hfiles. apply lookup_insert_eq.
  - apply item_chunks_flat.
  - apply Hs. assumption.
  - apply Hs. assumption.
Qed.

(** Two exports of a site for the same date and hour, whatever the network
    returned in between, leave one file at one path: it holds what the second
    fetch returned and nothing of the first, and every other file is as it
    was before the two. *)
Theorem export_same_hour_overwrites (O1 O2 : Outside) st site_name date hour
    path1 st1 path2 st2 :
  export_site_items (O := O1) st site_name (Some date) (Some hour)
  = (Ok (Some path1), st1) ->
  export_site_items (O := O2) st1 site_name (Some date) (Some hour)
  = (Ok (Some path2), st2) ->
  path2 = path1
  /\ (exists items2,
        (fetch_site_items (O := O2) st site_name default_limit).1 = Ok items2
        /\ st2.(files) !! path1
           = Some (Heading site_name date hour :: item_chunks 1 items2))
  /\ forall other,
       other <> path1 -> st2.(files) !! other = st.(files) !! other.
Proof.
  intros H1 H2.
  apply export_site_items_written in H1
    as (Hp1 & items1 & _ & _ & Hfiles1 & Hreg1).
  apply export_site_items_written in H2
    as (Hp2 & items2 & _ & Hfetch2 & Hfiles2 & _).
  simpl in Hp1, Hp2, Hfiles1, Hfiles2.
  assert (Hp : path2 = path1) by congruence. clear Hp1 Hp2. subst path2.
  split; [reflexivity|]. split.
  - exists items2. split.
    + rewrite <- Hfetch2. symmetry.
      now apply fetch_site_items_registry.
    + rewrite Hfiles2. apply lookup_insert_eq.
  - intros other Hne. rewrite Hfiles2, Hfiles1.
    now rewrite !lookup_insert_ne by congruence.
Qed.

End Exporting.

Section Witnesses.
Local Existing Instance Cases.libraries.

Lemma export_path_shape_witness :
  export_site_items (O := Cases.outside) Fixture.state "page" None None
  = (Ok (Some "custom_sites/page/2024-05-01/09.md"),
     (export_site_items (O := Cases.outside) Fixture.state "page" None None).2)
  /\ Shape.relative_dir "page" = true
  /\ "custom_sites/page/2024-05-01/09.md"
     = "custom_sites/" +:+ "page" +:+ "/" +:+ "2024-05-01" +:+ "/" +:+ "09"
       +:+ ".md".
Proof.
  split; [vm_compute; reflexivity|]. split; [reflexivity|].
  apply (export_path_shape (O := Cases.outside) Fixture.state "page" None None
           "custom_sites/page/2024-05-01/09.md"
           (export_site_items (O := Cases.outside) Fixture.state "page"
              None None).2);
    vm_compute; reflexivity.
Defined.

Lemma export_rooted_site_name_witness :
  export_site_items (O := Cases.outside) Cases.rooted_state "/tmp/x" None None
  = (Ok (Some "/tmp/x/2024-05-01/09.md"),
     (export_site_items (O := Cases.outside) Cases.rooted_state "/tmp/x"
        None None).2)
  /\ PyStr.startswith "/tmp/x" "/tmp/x/2024-05-01/09.md" = true
  /\ PyStr.startswith "custom_sites" "/tmp/x/2024-05-01/09.md" = false.
Proof.
  split; [vm_compute; reflexivity|].
  apply (export_rooted_site_name (O := Cases.outside) Cases.rooted_state
           "/tmp/x" None None "/tmp/x/2024-05-01/09.md"
           (export_site_items (O := Cases.outside) Cases.rooted_state "/tmp/x"
              None None).2);
    vm_compute; reflexivity.
Defined.

Lemma export_content_shape_witness :
  exists items body,
    (fetch_site_items (O := Cases.outside) Fixture.state "page"
       default_limit).1 = Ok items
    /\ items <> [] /\ length items <= 30
    /\ (export_site_items (O := Cases.outside) Fixture.state "page" None
          None).2.(files) !! "custom_sites/page/2024-05-01/09.md"
       = Some (Heading "page" "2024-05-01" "09" :: body)
    /\ body = concat (imap (fun i item => Shape.rendered (1 + i) item) items)
    /\ length (List.filter Shape.is_summary_line body)
       = length (List.filter (fun item => PyStr.truthy item.(summary)) items)
    /\ forall s, SummaryLine s ∈ body ->
         s <> EmptyString /\ exists item, item ∈ items /\ item.(summary) = s.
Proof.
  apply (export_content_shape (O := Cases.outside) Fixture.state "page" None
           None "custom_sites/page/2024-05-01/09.md"
           (export_site_items (O := Cases.outside) Fixture.state "page" None
              None).2).
  vm_compute. reflexivity.
Defined.

Lemma export_same_hour_overwrites_witness :
  export_site_items (O := Cases.outside) Fixture.state "page"
    (Some "2024-05-01") (Some "09")
  = (Ok (Some "custom_sites/page/2024-05-01/09.md"), Cases.after_first)
  /\ export_site_items (O := Cases.later) Cases.after_first "page"
       (Some "2024-05-01") (Some "09")
     = (Ok (Some "custom_sites/page/2024-05-01/09.md"), Cases.after_second)
  /\ exists items2,
       (fetch_site_items (O := Cases.later) Fixture.state "page"
          default_limit).1 = Ok items2
       /\ Cases.after_second.(files) !! "custom_sites/page/2024-05-01/09.md"
          = Some (Heading "page" "2024-05-01" "09" :: item_chunks 1 items2).
Proof.
  assert (H1 : export_site_items (O := Cases.outside) Fixture.state "page"
                 (Some "2024-05-01") (Some "09")
               = (Ok (Some "custom_sites/page/2024-05-01/09.md"),
                  Cases.after_first)) by (vm_compute; reflexivity).
  assert (H2 : export_site_items (O := Cases.later) Cases.after_first "page"
                 (Some "2024-05-01") (Some "09")
               = (Ok (Some "custom_sites/page/2024-05-01/09.md"),
                  Cases.after_second)) by (vm_compute; reflexivity).
  split; [exact H1|]. split; [exact H2|].
  exact (proj1 (proj2 (export_same_hour_overwrites Cases.outside Cases.later
                         Fixture.state "page" "2024-05-01" "09" _
                         Cases.after_first _ Cases.after_second H1 H2))).
Defined.

End Witnesses.

End ExportFacts.

(** ** The normalised name, once more *)

Module NormalizeFacts.

Import PyStr PyStrFacts CustomSiteClient GradioServer NameFacts.

Lemma lstrip_by_length p s :
  String.length (lstrip_by p s) <= String.length s.
Proof.
  induction s as [|c s IH]; simpl; [lia|]. destruct (p c); simpl; lia.
Qed.

Lemma lstrip_by_fixed p s c t :
  lstrip_by p s = s -> s = String c t -> p c = false.
Proof.
  intros H ->. simpl in H. destruct (p c) eqn:Hc; [|reflexivity].
  pose proof (lstrip_by_length p t) as Hl. rewrite H in Hl. simpl in Hl. lia.
Qed.

Lemma rstrip_by_idem p s : rstrip_by p (rstrip_by p s) = rstrip_by p s.
Proof.
  induction s as [|c s IH]; [reflexivity|]. simpl.
  destruct (rstrip_by p s) as [|d r] eqn:Hr.
  - destruct (p c) eqn:Hc; simpl; [reflexivity | now rewrite Hc].
  - simpl in *. now rewrite IH.
Qed.

Lemma trimmed_strip s : Shape.trimmed (strip s).
Proof.
  split.
  - destruct (strip s) as [|c t] eqn:Hs; [reflexivity|].
    simpl. now rewrite (strip_first _ _ _ Hs).
  - apply rstrip_by_idem.
Qed.

Lemma trimmed_map g s :
  (forall c, isspace c = false -> isspace (g c) = false) ->
  Shape.trimmed s -> Shape.trimmed (Shape.map_chars g s).
Proof.
  intros Hg [Hl Hr]. split.
  - destruct s as [|c t]; [reflexivity|]. simpl.
    now rewrite (Hg c (lstrip_by_fixed _ _ _ _ Hl eq_refl)).
  - clear Hl. induction s as [|c t IH]; [reflexivity|].
    simpl in *. destruct (rstrip_by isspace t) as [|d r] eqn:Ht.
    + destruct (isspace c) eqn:Hc; [discriminate|].
      injection Hr as <-. simpl. now rewrite (Hg c Hc).
    + injection Hr as Hr. rewrite IH by exact Hr.
      rewrite <- Hr. reflexivity.
Qed.

Lemma trimmed_strip_id s : Shape.trimmed s -> strip s = s.
Proof. intros [Hl Hr]. unfold strip, strip_by. now rewrite Hl. Qed.

Lemma lower_map s : lower s = Shape.map_chars lower_char s.
Proof. induction s as [|c s IH]; simpl; [reflexivity | now rewrite IH]. Qed.

Lemma replace_space_map s :
  replace " " "_" s
  = Shape.map_chars (fun c => if Ascii.eqb c " " then "_"%char else c) s.
Proof.
  induction s as [|c s IH]; simpl; [reflexivity|].
  rewrite IH. now destruct (Ascii.eqb c " ").
Qed.

Lemma lower_char_keeps_nonspace c :
  isspace c = false -> isspace (lower_char c) = false.
Proof. destruct c as [[] [] [] [] [] [] [] []]; vm_compute; congruence. Qed.

Lemma underscore_keeps_nonspace c :
  isspace c = false ->
  isspace (if Ascii.eqb c " " then "_"%char else c) = false.
Proof. intros H. now destruct (Ascii.eqb c " "). Qed.

Lemma lower_id s :
  forallb (fun c => negb (isupper c)) s = true -> lower s = s.
Proof.
  induction s as [|c s IH]; simpl; [reflexivity|].
  rewrite andb_true_iff, negb_true_iff. intros [Hc Hs].
  unfold lower_char. now rewrite Hc, IH.
Qed.

Lemma replace_id old new s :
  forallb (fun c => negb (Ascii.eqb old c)) s = true -> replace old new s = s.
Proof.
  induction s as [|c s IH]; simpl; [reflexivity|].
  rewrite andb_true_iff, negb_true_iff. intros [Hc Hs].
  rewrite Ascii.eqb_sym, Hc. now rewrite IH.
Qed.

(** A name that is not blank always normalises, whatever the address, to a
    name that is not empty, has neither a capital letter nor a space nor
    whitespace at its ends, and that normalising leaves as it is: supplying
    the registered name again reaches the same registry entry. *)
Theorem _normalize_site_name_idempotent {L : Libraries} raw_name fallback_url
    other_url :
  Spec.blank raw_name = false ->
  exists name,
    _normalize_site_name raw_name fallback_url = Ok name
    /\ name <> EmptyString
    /\ strip name = name
    /\ Spec.has_char isupper name = false
    /\ Spec.has_char (Ascii.eqb " ") name = false
    /\ _normalize_site_name (Some name) other_url = Ok name.
Proof.
  intros Hb.
  set (name := replace " " "_" (lower (strip (or_empty raw_name)))).
  assert (Hne : name <> EmptyString).
  { apply replace_nonempty; [discriminate|]. rewrite lower_empty.
    unfold Spec.blank in Hb. now apply negb_false_iff, truthy_true in Hb. }
  assert (Hstrip : strip name = name).
  { apply trimmed_strip_id. unfold name.
    rewrite replace_space_map, lower_map.
    apply trimmed_map; [apply underscore_keeps_nonspace|].
    apply trimmed_map; [apply lower_char_keeps_nonspace|].
    apply trimmed_strip. }
  assert (Hup : forallb (fun c => negb (isupper c)) name = true)
    by apply replace_space_no_upper, lower_no_upper.
  assert (Hsp : forallb (fun c => negb (Ascii.eqb " " c)) name = true)
    by apply replace_space_no_space.
  exists name. split; [now apply _normalize_site_name_given|].
  split; [exact Hne|]. split; [exact Hstrip|].
  split; [unfold Spec.has_char; now rewrite Hup|].
  split; [unfold Spec.has_char; now rewrite Hsp|].
  rewrite _normalize_site_name_given.
  - simpl or_empty. rewrite Hstrip, (lower_id _ Hup), (replace_id _ _ _ Hsp).
    reflexivity.
  - unfold Spec.blank. simpl or_empty. rewrite Hstrip.
    apply negb_false_iff. now apply truthy_true.
Qed.

Lemma _normalize_site_name_idempotent_witness :
  Spec.blank (Some " My Blog ") = false
  /\ exists name,
       _normalize_site_name (L := Fixture.libraries) (Some " My Blog ")
         Fixture.page_url = Ok name
       /\ name <> EmptyString
       /\ strip name = name
       /\ Spec.has_char isupper name = false
       /\ Spec.has_char (Ascii.eqb " ") name = false
       /\ _normalize_site_name (L := Fixture.libraries) (Some name)
            Fixture.nbsp_url = Ok name.
Proof.
  split; [reflexivity|].
  apply (_normalize_site_name_idempotent (L := Fixture.libraries)
           (Some " My Blog ") Fixture.page_url Fixture.nbsp_url).
  reflexivity.
Defined.

End NormalizeFacts.

(** ** The handler of the custom-site tab *)

Module HandlerFacts.

Import PyStr PyStrFacts Soup CustomSiteClient GradioServer ExtractorFacts
  OrchestrationFacts.

Lemma path_join_nonempty a b : b <> EmptyString -> path_join a b <> EmptyString.
Proof.
  intros Hb. unfold path_join.
  destruct (startswith "/" b); [exact Hb|].
  destruct (_ || _); intros H; apply app_eq_empty in H as [_ H];
    [|apply app_eq_empty in H as [_ H]]; contradiction.
Qed.

Section Handler.
Context {L : Libraries} {O : Outside}.
Implicit Types (st : State).

Lemma export_site_items_none st site_name date hour st' :
  export_site_items st site_name date hour = (Ok None, st') ->
  st'.(files) = st.(files).
Proof.
  intros H.
  pose proof (export_site_items_cases st site_name date hour) as Hc.
  cbv zeta in Hc.
  destruct (fetch_site_items_frame (LOG DEBUG (PreparingExport site_name) st)
              site_name default_limit) as [_ Hf].
  destruct (fetch_site_items _ site_name default_limit)
    as [[[|item rest]|exc] st1]; simpl in *; rewrite Hc in H.
  - injection H as <-. exact Hf.
  - discriminate.
  - destruct (isinstance_ValueError exc); [|discriminate].
    injection H as <-. exact Hf.
Qed.

Lemma export_site_items_some st site_name date hour file_path st' :
  export_site_items st site_name date hour = (Ok (Some file_path), st') ->
  file_path <> EmptyString /\ is_Some (st'.(files) !! file_path).
Proof.
  intros H.
  pose proof (export_site_items_cases st site_name date hour) as Hc.
  cbv zeta in Hc.
  destruct (fetch_site_items _ site_name default_limit)
    as [[[|item rest]|exc] st1]; simpl in *; rewrite Hc in H.
  - discriminate.
  - injection H as <- <-. split.
    + apply path_join_nonempty. intros E.
      apply app_eq_empty in E as [_ ?]. discriminate.
    + simpl. rewrite lookup_insert_eq. eauto.
  - destruct (isinstance_ValueError exc); discriminate.
Qed.

(** The handler rejects its input without touching anything: an address
    without a scheme or without a network location gets the message for an
    invalid address, an address the URL parser refuses makes the handler
    raise the parser's exception, and with neither a complete ad-hoc rule
    nor a chosen site it asks for one; the registry, the log and the files
    are as before in all three cases. *)
Theorem handler_rejects_without_effect st model_type model_name site_name
    custom_site_name custom_site_url custom_item_selector
    custom_title_selector custom_link_selector custom_summary_selector
    custom_base_url report_generator :
  build_report_generator model_type model_name = Ok report_generator ->
  (filled custom_site_url && filled custom_item_selector
     && filled custom_title_selector = true ->
   (forall parsed_url,
      UrlParse.urlparse (strip (or_empty custom_site_url)) EmptyString
      = Ok parsed_url ->
      parsed_url.(UrlParse.scheme) = EmptyString
      \/ parsed_url.(UrlParse.netloc) = EmptyString ->
      generate_custom_site_report st model_type model_name site_name
        custom_site_name custom_site_url custom_item_selector
        custom_title_selector custom_link_selector custom_summary_selector
        custom_base_url
      = (Ok InvalidUrlMessage, st))
   /\ (forall exc,
         UrlParse.urlparse (strip (or_empty custom_site_url)) EmptyString
         = Raise exc ->
         generate_custom_site_report st model_type model_name site_name
           custom_site_name custom_site_url custom_item_selector
           custom_title_selector custom_link_selector custom_summary_selector
           custom_base_url
         = (Raise exc, st)))
  /\ (filled custom_site_url && filled custom_item_selector
        && filled custom_title_selector = false ->
      filled site_name = false ->
      generate_custom_site_report st model_type model_name site_name
        custom_site_name custom_site_url custom_item_selector
        custom_title_selector custom_link_selector custom_summary_selector
        custom_base_url
      = (Ok ChooseSiteMessage, st)).
Proof.
  intros Hg. unfold generate_custom_site_report. rewrite Hg. split.
  - intros ->. split.
    + intros parsed -> [Hs | Hn].
      * now rewrite Hs.
      * rewrite Hn. now rewrite orb_true_r.
    + intros exc ->. reflexivity.
  - intros -> ->. reflexivity.
Qed.

(** A complete ad-hoc rule (address, item selector and title selector all
    filled in) takes precedence: the chosen site plays no part.  An
    incomplete one is ignored altogether, name, link, summary and base boxes
    included: the chosen site is exported and nothing is registered. *)
Theorem handler_adhoc_precedence st model_type model_name site_name other_site
    custom_site_name custom_site_url custom_item_selector
    custom_title_selector custom_link_selector custom_summary_selector
    custom_base_url :
  (filled custom_site_url && filled custom_item_selector
     && filled custom_title_selector = true ->
   generate_custom_site_report st model_type model_name site_name
     custom_site_name custom_site_url custom_item_selector
     custom_title_selector custom_link_selector custom_summary_selector
     custom_base_url
   = generate_custom_site_report st model_type model_name other_site
       custom_site_name custom_site_url custom_item_selector
       custom_title_selector custom_link_selector custom_summary_selector
       custom_base_url)
  /\ (filled custom_site_url && filled custom_item_selector
        && filled custom_title_selector = false ->
      forall report_generator,
        build_report_generator model_type model_name = Ok report_generator ->
        filled site_name = true ->
        generate_custom_site_report st model_type model_name site_name
          custom_site_name custom_site_url custom_item_selector
          custom_title_selector custom_link_selector custom_summary_selector
          custom_base_url
        = export_and_report report_generator st (or_empty site_name)
        /\ (generate_custom_site_report st model_type model_name site_name
              custom_site_name custom_site_url custom_item_selector
              custom_title_selector custom_link_selector
              custom_summary_selector custom_base_url).2.(site_configs)
           = st.(site_configs)).
Proof.
  unfold generate_custom_site_report. split.
  - intros ->. reflexivity.
  - intros -> g -> ->. simpl. split; [reflexivity|].
    apply NameFacts.export_and_report_registry.
Qed.

(** What the handler answers after the export: a report only when a file was
    exported and the generator returned that report for this file and the
    chosen site; the no-data message exactly when the export gave no file,
    the files then being as before; and when it raises, the fetch had
    returned at least one item: an unknown site, a failed request, an error
    status or a failed parsing never makes the handler raise. *)
Theorem report_follows_export
    (report_generator : string -> string -> result (string * string))
    st chosen_site :
  match export_and_report report_generator st chosen_site with
  | (Ok (Report report report_file_path), st') =>
      exists file_path,
        export_site_items st chosen_site None None
        = (Ok (Some file_path), st')
        /\ is_Some (st'.(files) !! file_path)
        /\ report_generator file_path chosen_site
           = Ok (report, report_file_path)
  | (Ok NoDataMessage, st') =>
      export_site_items st chosen_site None None = (Ok None, st')
      /\ st'.(files) = st.(files)
  | (Ok _, _) => False
  | (Raise exc, st') =>
      exists items,
        items <> []
        /\ (fetch_site_items st chosen_site default_limit).1 = Ok items
  end.
Proof.
  unfold export_and_report.
  destruct (export_site_items st chosen_site None None)
    as [[[file_path|]|exc] st1] eqn:He.
  - destruct (export_site_items_some _ _ _ _ _ _ He) as [Hne Hfile].
    apply truthy_true in Hne. rewrite Hne. simpl.
    destruct (report_generator file_path chosen_site) as [[report path]|exc]
      eqn:Hg; [eauto|].
    apply ExportFacts.export_site_items_written in He
      as (_ & items & Hitems & Hfetch & _).
    now exists items.
  - split; [reflexivity|]. now apply (export_site_items_none _ _ _ _ _ He).
  - exfalso.
    pose proof (export_site_items_cases st chosen_site None None) as Hc.
    cbv zeta in Hc.
    destruct (fetch_site_items _ chosen_site default_limit)
      as [[[|item rest]|exc'] st2] eqn:Hf; rewrite Hc in He;
      try discriminate.
    destruct (isinstance_ValueError exc') eqn:Hv; [discriminate|].
    unfold fetch_site_items in Hf. simpl in Hf.
    destruct (st.(site_configs) !! chosen_site) as [config|].
    + destruct (fetch_and_parse config); discriminate.
    + injection Hf as <- _. discriminate.
Qed.

(** The items of an ad-hoc site have their links joined to the content of
    the base box, trimmed, or, when that is blank, to the origin of the
    address ([scheme://netloc]); never to the address of the page itself. *)
Theorem adhoc_links_join_origin chosen_site parsed_url custom_site_url
    custom_item_selector custom_title_selector custom_link_selector
    custom_summary_selector custom_base_url node item :
  parse_item_node
    (adhoc_config chosen_site parsed_url custom_site_url custom_item_selector
       custom_title_selector custom_link_selector custom_summary_selector
       custom_base_url) node
  = Ok (Some item) ->
  exists title_node link_node base,
    select_one (strip (or_empty custom_title_selector)) node
    = Ok (Some title_node)
    /\ find_link_node
         (adhoc_config chosen_site parsed_url custom_site_url
            custom_item_selector custom_title_selector custom_link_selector
            custom_summary_selector custom_base_url) node title_node
       = Ok link_node
    /\ base = (if truthy (strip (or_empty custom_base_url))
               then strip (or_empty custom_base_url)
               else parsed_url.(UrlParse.scheme) +:+ "://"
                    +:+ parsed_url.(UrlParse.netloc))
    /\ (raw_link_of link_node <> EmptyString ->
        UrlParse.urljoin base (raw_link_of link_node) = Ok item.(link)).
Proof.
  intros H. apply LinkFacts.link_of_emitted in H
    as (t & l & Ht & Hl & Hlink & _).
  exists t, l. eexists. split; [exact Ht|]. split; [exact Hl|].
  split; [reflexivity|].
  intros Hraw. specialize (Hlink Hraw).
  unfold link_base, adhoc_config in Hlink. simpl in Hlink.
  destruct (truthy (strip (or_empty custom_base_url))) eqn:Hb.
  - now rewrite Hb in Hlink.
  - destruct (UrlParse.scheme parsed_url) as [|c sch]; exact Hlink.
Qed.

End Handler.

Section Witnesses.
Local Existing Instance Fixture.libraries.
Local Existing Instance Fixture.outside.

Lemma handler_rejects_without_effect_witness :
  generate_custom_site_report Fixture.state "openai" "gpt-4o" None None
    (Some "example.com/news") (Some "li") (Some "a") None None None
  = (Ok InvalidUrlMessage, Fixture.state).
Proof.
  edestruct (handler_rejects_without_effect Fixture.state "openai" "gpt-4o"
               None None (Some "example.com/news") (Some "li") (Some "a")
               None None None) as [H _]; [reflexivity|].
  destruct (H eq_refl) as [H1 _].
  eapply H1; [reflexivity | left; reflexivity].
Defined.

Lemma handler_adhoc_precedence_witness :
  generate_custom_site_report Fixture.state "openai" "gpt-4o"
    (Some "openai_blog") None (Some Fixture.page_url) (Some "li") (Some "a")
    None None None
  = generate_custom_site_report Fixture.state "openai" "gpt-4o" None None
      (Some Fixture.page_url) (Some "li") (Some "a") None None None.
Proof.
  apply (proj1 (handler_adhoc_precedence Fixture.state "openai" "gpt-4o"
                  (Some "openai_blog") None None (Some Fixture.page_url)
                  (Some "li") (Some "a") None None None)).
  reflexivity.
Defined.

Lemma adhoc_links_join_origin_witness :
  parse_item_node
    (adhoc_config "example_com"
       (UrlParse.mkParseResult "https" "example.com" "/dir/page.xml"
          EmptyString EmptyString EmptyString)
       (Some Fixture.page_url) (Some "li") (Some "a") None None None)
    Fixture.relative_item
  = Ok (Some (mkItem "Title" "https://example.com/a/b" EmptyString))
  /\ exists title_node link_node base,
       select_one (strip (or_empty (Some "a"))) Fixture.relative_item
       = Ok (Some title_node)
       /\ find_link_node
            (adhoc_config "example_com"
               (UrlParse.mkParseResult "https" "example.com" "/dir/page.xml"
                  EmptyString EmptyString EmptyString)
               (Some Fixture.page_url) (Some "li") (Some "a") None None None)
            Fixture.relative_item title_node
          = Ok link_node
       /\ base = "https://example.com"
       /\ (raw_link_of link_node <> EmptyString ->
           UrlParse.urljoin base (raw_link_of link_node)
           = Ok "https://example.com/a/b").
Proof.
  split; [reflexivity|].
  apply (adhoc_links_join_origin "example_com"
           (UrlParse.mkParseResult "https" "example.com" "/dir/page.xml"
              EmptyString EmptyString EmptyString)
           (Some Fixture.page_url) (Some "li") (Some "a") None None None
           Fixture.relative_item
           (mkItem "Title" "https://example.com/a/b" EmptyString)).
  reflexivity.
Defined.

End Witnesses.

End HandlerFacts.
